(** * Sentient-Climate: the weather bot's parser, schema, formatter and dispatcher

    A shallow embedding of [src/bot.js] (the main handler file), of the
    callback decoder of [src/api/bot.js] and of the formatter of the
    stand-alone serverless variant, followed by the properties that the
    specification states about them.

    Conventions.
    - A JavaScript string is the list of its UTF-16 code units ([jsstr]).
      Literals are written with [js], which turns the UTF-8 text of a Rocq
      string into code units and reads the two characters backslash-n as a
      line feed, so that the literals of the source can be kept as they are.
    - A JavaScript number that went through the schema is a rational ([Q]):
      it is never NaN, and the sign of zero is not observable here.  Its
      decimal rendering ([Number::toString]) belongs to the runtime and is a
      field of [Runtime].
    - The bot's effects (Telegram calls, the call to the model) are recorded
      in order as a list of [Event]s by a small writer-and-exception monad.
      Console output is not recorded. *)

From Stdlib Require Import List NArith ZArith QArith Qround String Ascii Bool Lia.
From Stdlib Require Import DecimalString.
Import ListNotations.

Set Implicit Arguments.
Set Warnings "-register-all".

(* ================================================================== *)
(** * JavaScript strings                                                *)
(* ================================================================== *)

Module JS.

Abbreviation CodeUnit := N (only parsing).
Abbreviation jsstr := (list N) (only parsing).

(** ** Literals *)

Definition bytes_of (s : string) : list N :=
  List.map N_of_ascii (list_ascii_of_string s).

(** UTF-16 code units of one code point. *)
Definition utf16 (cp : N) : list CodeUnit :=
  if (cp <? 65536)%N then [cp]
  else [(55296 + (cp - 65536) / 1024)%N; (56320 + (cp - 65536) mod 1024)%N].

(** UTF-8 decoding of the bytes of a literal; backslash-n is a line feed. *)
Fixpoint decode (bs : list N) : jsstr :=
  match bs with
  | [] => []
  | b :: r =>
    if (b =? 92)%N then
      match r with
      | 110%N :: r' => 10%N :: decode r'
      | _ => b :: decode r
      end
    else if (b <? 128)%N then b :: decode r
    else if (b <? 224)%N then
      match r with
      | c1 :: r' => utf16 ((b - 192) * 64 + (c1 - 128)) ++ decode r'
      | _ => [b]
      end
    else if (b <? 240)%N then
      match r with
      | c1 :: c2 :: r' =>
          utf16 ((b - 224) * 4096 + (c1 - 128) * 64 + (c2 - 128)) ++ decode r'
      | _ => [b]
      end
    else
      match r with
      | c1 :: c2 :: c3 :: r' =>
          utf16 ((b - 240) * 262144 + (c1 - 128) * 4096
                 + (c2 - 128) * 64 + (c3 - 128)) ++ decode r'
      | _ => [b]
      end
  end.

Definition js (s : string) : jsstr := decode (bytes_of s).

(** The double quote, which a literal cannot hold. *)
Definition dq : jsstr := [34%N].

(** ** Equality, truthiness *)

Fixpoint eqb (a b : jsstr) : bool :=
  match a, b with
  | [], [] => true
  | x :: a', y :: b' => (x =? y)%N && eqb a' b'
  | _, _ => false
  end.

(** [!s] is true exactly for the empty string. *)
Definition truthy (s : jsstr) : bool :=
  match s with [] => false | _ => true end.

(** [a || b] on strings. *)
Definition orElse (a b : jsstr) : jsstr := if truthy a then a else b.

(** ** White space: [\s] of a regular expression and [String.prototype.trim]
    agree on WhiteSpace and LineTerminator code points. *)

Definition isWhiteSpace (c : CodeUnit) : bool :=
  ((9 <=? c) && (c <=? 13) || (c =? 32) || (c =? 160) || (c =? 5760)
   || (8192 <=? c) && (c <=? 8202) || (c =? 8232) || (c =? 8233)
   || (c =? 8239) || (c =? 8287) || (c =? 12288) || (c =? 65279))%N.

Fixpoint trimStart (s : jsstr) : jsstr :=
  match s with
  | [] => []
  | c :: r => if isWhiteSpace c then trimStart r else s
  end.

Fixpoint trimEnd (s : jsstr) : jsstr :=
  match s with
  | [] => []
  | c :: r =>
    match trimEnd r with
    | [] => if isWhiteSpace c then [] else [c]
    | r' => c :: r'
    end
  end.

Definition trim (s : jsstr) : jsstr := trimEnd (trimStart s).

(** ** Case *)

Definition lowerUnit (c : CodeUnit) : CodeUnit :=
  if ((65 <=? c) && (c <=? 90))%N then (c + 32)%N else c.

(** [String.prototype.toLowerCase], on the ASCII range.  Outside it the
    runtime applies the Unicode mapping, which never yields a slash, a
    space or a letter of the word weather from a code unit above 127 (the
    only ASCII letters so produced are i and k), so the three tests of the
    dispatcher, the only users, have the same outcome. *)
Definition toLowerCase (s : jsstr) : jsstr := List.map lowerUnit s.

Fixpoint startsWith (s p : jsstr) {struct p} : bool :=
  match p, s with
  | [], _ => true
  | x :: p', y :: s' => (x =? y)%N && startsWith s' p'
  | _ :: _, [] => false
  end.

Fixpoint includes (s p : jsstr) : bool :=
  startsWith s p || match s with [] => false | _ :: r => includes r p end.

(** Prefix test of a regular expression with the [i] flag against a pattern
    of lower-case ASCII letters and punctuation: a code unit matches a
    pattern letter when it is that letter in either case. *)
Fixpoint startsWithCI (s p : jsstr) {struct p} : bool :=
  match p, s with
  | [], _ => true
  | x :: p', y :: s' => (x =? lowerUnit y)%N && startsWithCI s' p'
  | _ :: _, [] => false
  end.

(** ** split and join *)

(** [s.split(sep)] for a separator that matches exactly one code unit
    satisfying [d]: the first segment and the following ones. *)
Fixpoint split2 (d : CodeUnit -> bool) (s : jsstr) : jsstr * list jsstr :=
  match s with
  | [] => ([], [])
  | c :: r =>
    let (h, t) := split2 d r in
    if d c then ([], h :: t) else (c :: h, t)
  end.

Definition split (d : CodeUnit -> bool) (s : jsstr) : list jsstr :=
  let (h, t) := split2 d s in h :: t.

Fixpoint join (sep : jsstr) (parts : list jsstr) : jsstr :=
  match parts with
  | [] => []
  | [x] => x
  | x :: r => x ++ sep ++ join sep r
  end.

End JS.

Import JS.

(* ================================================================== *)
(** * Parsed JSON values and the zod combinators the schema uses        *)
(* ================================================================== *)

Inductive Json :=
| JNull
| JBool (b : bool)
| JNum (q : Q)
| JStr (s : jsstr)
| JArr (items : list Json)
| JObj (fields : list (jsstr * Json)).

(** [o[k]], [None] being [undefined].  [JObj] lists the members in the
    order of the text; of a repeated key the last one counts, as for
    [JSON.parse]. *)
Fixpoint getField (k : jsstr) (o : list (jsstr * Json)) : option Json :=
  match o with
  | [] => None
  | (k', v) :: r =>
    match getField k r with
    | Some later => Some later
    | None => if JS.eqb k k' then Some v else None
    end
  end.

Module Zod.

Inductive PathSeg := Key (k : jsstr) | Index (i : nat).
Definition Path := list PathSeg.

(** The outcome of [safeParse]: the parsed value or the issues, each with
    the path of the offending field. *)
Inductive Parsed (A : Type) :=
| Valid (a : A)
| Invalid (issues : list Path).
Arguments Invalid {A} issues.

Definition issuesOf {A} (p : Parsed A) : list Path :=
  match p with Valid _ => [] | Invalid i => i end.

Definition isValid {A} (p : Parsed A) : bool :=
  match p with Valid _ => true | Invalid _ => false end.

Definition pure {A} (a : A) : Parsed A := Valid a.

(** Every field of an object is parsed and the issues of all of them are
    collected. *)
Definition ap {A B} (pf : Parsed (A -> B)) (pa : Parsed A) : Parsed B :=
  match pf, pa with
  | Valid f, Valid a => Valid (f a)
  | _, _ => Invalid (issuesOf pf ++ issuesOf pa)
  end.

Definition fmap {A B} (f : A -> B) (p : Parsed A) : Parsed B :=
  match p with Valid a => Valid (f a) | Invalid i => Invalid i end.

Definition under {A} (seg : PathSeg) (p : Parsed A) : Parsed A :=
  match p with
  | Valid a => Valid a
  | Invalid i => Invalid (List.map (cons seg) i)
  end.

(** A schema is applied to a value or to [undefined] ([None]). *)
Definition Schema (A : Type) := option Json -> Parsed A.

Definition string : Schema jsstr := fun v =>
  match v with Some (JStr s) => Valid s | _ => Invalid [[]] end.

Definition number : Schema Q := fun v =>
  match v with Some (JNum q) => Valid q | _ => Invalid [[]] end.

(** The checks chained on a schema ([.min], [.max], [.int], ...): all of
    them run, each failing one adds an issue. *)
Definition run {A} (checks : list (A -> bool)) (a : A) : Parsed A :=
  match List.filter (fun c => negb (c a)) checks with
  | [] => Valid a
  | failed => Invalid (List.map (fun _ => []) failed)
  end.

Definition checked {A} (s : Schema A) (checks : list (A -> bool)) : Schema A :=
  fun v =>
    match s v with
    | Valid a => run checks a
    | Invalid i => Invalid i
    end.

Definition optional {A} (s : Schema A) : Schema (option A) := fun v =>
  match v with
  | None => Valid None
  | Some _ => fmap Some (s v)
  end.

Fixpoint items {A} (s : Schema A) (i : nat) (l : list Json) : Parsed (list A) :=
  match l with
  | [] => Valid []
  | x :: r => ap (ap (pure cons) (under (Index i) (s (Some x)))) (items s (S i) r)
  end.

(** [z.array(s)] with its length checks. *)
Definition array {A} (s : Schema A) (checks : list (nat -> bool)) : Schema (list A) :=
  fun v =>
    match v with
    | Some (JArr l) =>
      ap (ap (pure (fun _ xs => xs)) (run checks (List.length l))) (items s 0 l)
    | _ => Invalid [[]]
    end.

Definition field {A} (k : jsstr) (s : Schema A) (o : list (jsstr * Json)) : Parsed A :=
  under (Key k) (s (getField k o)).

(** Checks. *)
Definition minLength (n : nat) (s : jsstr) : bool := Nat.leb n (List.length s).
Definition int (q : Q) : bool := Qeq_bool (inject_Z (Qfloor q)) q.
Definition min (b : Q) (q : Q) : bool := Qle_bool b q.
Definition max (b : Q) (q : Q) : bool := Qle_bool q b.
Definition nonnegative (q : Q) : bool := Qle_bool 0 q.
Definition minItems (n : nat) (len : nat) : bool := Nat.leb n len.
Definition maxItems (n : nat) (len : nat) : bool := Nat.leb len n.

End Zod.

Notation "f <*> a" := (Zod.ap f a) (at level 61, left associativity).

(* ================================================================== *)
(** * The schema (identical in the three handler files)                 *)
(* ================================================================== *)

Module WeatherInfo.
Record t := mk {
  location : jsstr;
  current_temp : option Q;
  condition : jsstr;
  humidity : option Q;
  wind_speed : option Q;
  recommendations : option (list jsstr)
}.

Definition schema : Zod.Schema t := fun v =>
  match v with
  | Some (JObj o) =>
    Zod.pure mk
    <*> Zod.field (js "location") (Zod.checked Zod.string [Zod.minLength 1]) o
    <*> Zod.field (js "current_temp") (Zod.optional Zod.number) o
    <*> Zod.field (js "condition") Zod.string o
    <*> Zod.field (js "humidity")
          (Zod.optional (Zod.checked Zod.number [Zod.int; Zod.min 0; Zod.max 100])) o
    <*> Zod.field (js "wind_speed")
          (Zod.optional (Zod.checked Zod.number [Zod.nonnegative])) o
    <*> Zod.field (js "recommendations") (Zod.optional (Zod.array Zod.string [])) o
  | _ => Zod.Invalid [[]]
  end.
End WeatherInfo.

Module WeatherForecast.
Record t := mk {
  date : jsstr;
  high_temp : Q;
  low_temp : Q;
  condition : jsstr
}.

Definition schema : Zod.Schema t := fun v =>
  match v with
  | Some (JObj o) =>
    Zod.pure mk
    <*> Zod.field (js "date") Zod.string o
    <*> Zod.field (js "high_temp") Zod.number o
    <*> Zod.field (js "low_temp") Zod.number o
    <*> Zod.field (js "condition") Zod.string o
  | _ => Zod.Invalid [[]]
  end.
End WeatherForecast.

Module Output.
Record t := mk {
  current_weather : WeatherInfo.t;
  forecast : option (list WeatherForecast.t);
  clothing_suggestions : option (list jsstr);
  activity_recommendations : option (list jsstr)
}.

Definition schema : Zod.Schema t := fun v =>
  match v with
  | Some (JObj o) =>
    Zod.pure mk
    <*> Zod.field (js "current_weather") WeatherInfo.schema o
    <*> Zod.field (js "forecast")
          (Zod.optional (Zod.array WeatherForecast.schema
                           [Zod.minItems 1; Zod.maxItems 7])) o
    <*> Zod.field (js "clothing_suggestions") (Zod.optional (Zod.array Zod.string [])) o
    <*> Zod.field (js "activity_recommendations")
          (Zod.optional (Zod.array Zod.string [])) o
  | _ => Zod.Invalid [[]]
  end.
End Output.

(** Validation of a candidate object against the root schema. *)
Definition validate (candidate : Json) : Zod.Parsed Output.t :=
  Output.schema (Some candidate).

(* ================================================================== *)
(** * Effects                                                           *)
(* ================================================================== *)

Record Button := { text : jsstr; callback_data : jsstr }.

Record SendOptions := {
  parse_mode : jsstr;
  disable_web_page_preview : bool;
  reply_markup : option (list (list Button))      (* inline_keyboard *)
}.

Inductive Event :=
| SendChatAction (chatId : Z) (action : jsstr)
| SendMessage (chatId : Z) (message : jsstr) (options : option SendOptions)
| AnswerCallbackQuery (id : jsstr)
| GenerateObject (prompt : jsstr).

Inductive Exn :=
| TypeError
| GenerationFailure
| SchemaViolation (issues : list Zod.Path).

(** What the process does not decide: how a number prints, and what the
    generation service answers to a prompt ([None]: the call itself failed;
    [Some j]: the JSON value it produced, not yet validated). *)
Record Runtime := {
  numToString : Q -> jsstr;
  reply : jsstr -> option Json
}.

(** A computation leaves a trace of events and ends with a value or with
    a thrown exception. *)
Definition M (A : Type) : Type := (list Event * (Exn + A))%type.

Definition ret {A} (a : A) : M A := ([], inr a).
Definition throw {A} (e : Exn) : M A := ([], inl e).
Definition emit (ev : Event) : M unit := ([ev], inr tt).

Definition bind {A B} (m : M A) (k : A -> M B) : M B :=
  match m with
  | (t, inl e) => (t, inl e)
  | (t, inr a) => let (t', r) := k a in (t ++ t', r)
  end.

Definition tryCatch {A} (m : M A) (handler : Exn -> M A) : M A :=
  match m with
  | (t, inl e) => let (t', r) := handler e in (t ++ t', r)
  | ok => ok
  end.

Notation "x <- m ;; k" := (bind m (fun x => k))
  (at level 100, m at next level, right associativity).
Notation "m ;;; k" := (bind m (fun _ => k))
  (at level 100, right associativity).

Definition trace {A} (m : M A) : list Event := fst m.
Definition outcome {A} (m : M A) : Exn + A := snd m.

(** [generateObject({model, schema, prompt})]: one outbound call; the
    answer is validated against the schema and a mismatch is thrown. *)
Definition generateObject {A} (rt : Runtime) (schema : Zod.Schema A) (prompt : jsstr)
  : M A :=
  emit (GenerateObject prompt) ;;;
  match reply rt prompt with
  | None => throw GenerationFailure
  | Some j =>
    match schema (Some j) with
    | Zod.Valid a => ret a
    | Zod.Invalid issues => throw (SchemaViolation issues)
    end
  end.

(** Truthiness of a number and of an optional number ([undefined] is falsy). *)
Definition numTruthy (q : Q) : bool := negb (Qeq_bool q 0).

Definition optTruthy (o : option Q) : bool :=
  match o with Some q => numTruthy q | None => false end.

(** An optional number inside a template literal. *)
Definition showOpt (rt : Runtime) (o : option Q) : jsstr :=
  match o with Some q => numToString rt q | None => js "undefined" end.

(** [a?.length] as a condition, and the array to iterate when it holds. *)
Definition hasItems {A} (a : option (list A)) : bool :=
  match a with Some (_ :: _) => true | _ => false end.

Definition itemsOf {A} (a : option (list A)) : list A :=
  match a with Some l => l | None => [] end.

(** [l.forEach(x => { message += f x })]. *)
Definition appendEach {A} (f : A -> jsstr) (l : list A) (message : jsstr) : jsstr :=
  fold_left (fun m x => m ++ f x) l message.

(* ================================================================== *)
(** * The pieces of a summary message                                   *)
(* ================================================================== *)

(** One constructor per [message += ...] of [formatWeatherMessage]: the
    section titles are fixed texts, the other pieces interpolate a field of
    the report. *)
Inductive Line :=
| Header (location : jsstr)
| CurrentTitle
| TemperatureLine (current_temp : Q)
| ConditionLine (condition : jsstr)
| HumidityLine (humidity : Q)
| WindLine (wind_speed : Q)
| ForecastTitle
| DayLine (day : WeatherForecast.t)
| ClothingTitle
| ClothingItem (item : jsstr)
| ActivityTitle
| ActivityItem (activity : jsstr)
| TipsTitle
| TipItem (tip : jsstr).

(** The pieces that show a field of the report. *)
Definition showsField (l : Line) : bool :=
  match l with
  | CurrentTitle | ForecastTitle | ClothingTitle | ActivityTitle | TipsTitle => false
  | _ => true
  end.

Definition isTemperatureLine (l : Line) : bool :=
  match l with TemperatureLine _ => true | _ => false end.
Definition isHumidityLine (l : Line) : bool :=
  match l with HumidityLine _ => true | _ => false end.
Definition isWindLine (l : Line) : bool :=
  match l with WindLine _ => true | _ => false end.

(** The pieces [formatWeatherMessage] appends, in order; the three handler
    files differ in the texts and in the presence of the title of the
    current-conditions block only. *)
Definition summaryLines (withCurrentTitle : bool) (weatherData : Output.t) : list Line :=
  let current_weather := Output.current_weather weatherData in
  [Header (WeatherInfo.location current_weather)]
  ++ (if withCurrentTitle then [CurrentTitle] else [])
  ++ match WeatherInfo.current_temp current_weather with
     | Some t => if numTruthy t then [TemperatureLine t] else []
     | None => []
     end
  ++ [ConditionLine (WeatherInfo.condition current_weather)]
  ++ match WeatherInfo.humidity current_weather with
     | Some h => if numTruthy h then [HumidityLine h] else []
     | None => []
     end
  ++ match WeatherInfo.wind_speed current_weather with
     | Some v => if numTruthy v then [WindLine v] else []
     | None => []
     end
  ++ (if hasItems (Output.forecast weatherData)
      then ForecastTitle :: List.map DayLine (firstn 3 (itemsOf (Output.forecast weatherData)))
      else [])
  ++ (if hasItems (Output.clothing_suggestions weatherData)
      then ClothingTitle
           :: List.map ClothingItem (itemsOf (Output.clothing_suggestions weatherData))
      else [])
  ++ (if hasItems (Output.activity_recommendations weatherData)
      then ActivityTitle
           :: List.map ActivityItem (itemsOf (Output.activity_recommendations weatherData))
      else [])
  ++ (if hasItems (WeatherInfo.recommendations current_weather)
      then TipsTitle
           :: List.map TipItem (itemsOf (WeatherInfo.recommendations current_weather))
      else []).

(* ================================================================== *)
(** * src/bot.js                                                        *)
(* ================================================================== *)

Module Bot.

(** ** getWeatherInfo *)

Definition quoted (s : string) : jsstr := dq ++ js s ++ dq.

(** The template literal of [getWeatherInfo]. *)
Definition prompt (location preferences : jsstr) : jsstr :=
  js "\nYou are Weather Assistant AI. Given the user’s location and preferences,\n"
  ++ js "provide current weather information and helpful recommendations.\n\n"
  ++ js "Return ONLY valid JSON that matches this shape:\n{\n"
  ++ quoted "current_weather" ++ js ": {\n"
  ++ quoted "location" ++ js ": string,\n"
  ++ quoted "current_temp" ++ js "?: number,\n"
  ++ quoted "condition" ++ js ": string,\n"
  ++ quoted "humidity" ++ js "?: number,\n"
  ++ quoted "wind_speed" ++ js "?: number,\n"
  ++ quoted "recommendations" ++ js "?: string[]\n},\n"
  ++ quoted "forecast" ++ js "?: [\n{"
  ++ quoted "date" ++ js ": string, "
  ++ quoted "high_temp" ++ js ": number, "
  ++ quoted "low_temp" ++ js ": number, "
  ++ quoted "condition" ++ js ": string}\n],\n"
  ++ quoted "clothing_suggestions" ++ js "?: string[],\n"
  ++ quoted "activity_recommendations" ++ js "?: string[]\n}\n\n"
  ++ js "Do not include extra keys or prose. Output JSON only\n"
  ++ js "Location: " ++ location ++ js "\n"
  ++ js "Preferences: " ++ preferences ++ js "\n"
  ++ js "Date: today\n".

(** [getWeatherInfo(location, preferences = "")]; its [catch] logs and
    rethrows. *)
Definition getWeatherInfo (rt : Runtime) (location : jsstr) (preferences : option jsstr)
  : M Output.t :=
  let preferences := match preferences with Some p => p | None => js "" end in
  tryCatch (generateObject rt Output.schema (prompt location preferences))
           (fun error => throw error).

(** ** formatWeatherMessage *)

Definition dayLine (rt : Runtime) (day : WeatherForecast.t) : jsstr :=
  WeatherForecast.date day ++ js ": " ++ numToString rt (WeatherForecast.high_temp day)
  ++ js "°/" ++ numToString rt (WeatherForecast.low_temp day) ++ js "° - "
  ++ WeatherForecast.condition day ++ js "\n".

Definition bullet (item : jsstr) : jsstr := js "• " ++ item ++ js "\n".

Definition formatWeatherMessage (rt : Runtime) (weatherData : Output.t) : jsstr :=
  let current_weather := Output.current_weather weatherData in
  let forecast := Output.forecast weatherData in
  let clothing_suggestions := Output.clothing_suggestions weatherData in
  let activity_recommendations := Output.activity_recommendations weatherData in
  let message :=
    js "🌤️ **Weather for " ++ WeatherInfo.location current_weather ++ js "**\n\n" in
  let message := message ++ js "🌡️ **Current Conditions:**\n" in
  let message :=
    if optTruthy (WeatherInfo.current_temp current_weather)
    then message ++ js "Temperature: "
                 ++ showOpt rt (WeatherInfo.current_temp current_weather) ++ js "°C\n"
    else message in
  let message :=
    message ++ js "Condition: " ++ WeatherInfo.condition current_weather ++ js "\n" in
  let message :=
    if optTruthy (WeatherInfo.humidity current_weather)
    then message ++ js "💧 Humidity: "
                 ++ showOpt rt (WeatherInfo.humidity current_weather) ++ js "%\n"
    else message in
  let message :=
    if optTruthy (WeatherInfo.wind_speed current_weather)
    then message ++ js "💨 Wind Speed: "
                 ++ showOpt rt (WeatherInfo.wind_speed current_weather) ++ js " km/h\n"
    else message in
  let message :=
    if hasItems forecast
    then appendEach (dayLine rt) (firstn 3 (itemsOf forecast))
                    (message ++ js "\n📅 **Forecast (next 3 days):**\n")
    else message in
  let message :=
    if hasItems clothing_suggestions
    then appendEach bullet (itemsOf clothing_suggestions)
                    (message ++ js "\n👕 **What to wear:**\n")
    else message in
  let message :=
    if hasItems activity_recommendations
    then appendEach bullet (itemsOf activity_recommendations)
                    (message ++ js "\n🎯 **Activity suggestions:**\n")
    else message in
  let message :=
    if hasItems (WeatherInfo.recommendations current_weather)
    then appendEach bullet (itemsOf (WeatherInfo.recommendations current_weather))
                    (message ++ js "\n💡 **Tips:**\n")
    else message in
  message.

(** The text of each piece, and the pieces of a message: the message is
    their concatenation ([formatWeatherMessage_lines] below). *)
Definition renderLine (rt : Runtime) (l : Line) : jsstr :=
  match l with
  | Header location => js "🌤️ **Weather for " ++ location ++ js "**\n\n"
  | CurrentTitle => js "🌡️ **Current Conditions:**\n"
  | TemperatureLine t => js "Temperature: " ++ numToString rt t ++ js "°C\n"
  | ConditionLine c => js "Condition: " ++ c ++ js "\n"
  | HumidityLine h => js "💧 Humidity: " ++ numToString rt h ++ js "%\n"
  | WindLine v => js "💨 Wind Speed: " ++ numToString rt v ++ js " km/h\n"
  | ForecastTitle => js "\n📅 **Forecast (next 3 days):**\n"
  | DayLine day => dayLine rt day
  | ClothingTitle => js "\n👕 **What to wear:**\n"
  | ActivityTitle => js "\n🎯 **Activity suggestions:**\n"
  | TipsTitle => js "\n💡 **Tips:**\n"
  | ClothingItem i | ActivityItem i | TipItem i => bullet i
  end.

Definition messageLines : Output.t -> list Line := summaryLines true.

(** ** parseWeatherCommand *)

Record Command := { location : jsstr; preferences : jsstr }.

(** [text.replace(/^\/weather\s*/i, "")]. *)
Definition replaceWeatherPrefix (text : jsstr) : jsstr :=
  if startsWithCI text (js "/weather") then trimStart (skipn 8 text) else text.

(** The class [[,;|]]. *)
Definition isDelimiter (c : CodeUnit) : bool :=
  ((c =? 44) || (c =? 59) || (c =? 124))%N.

Definition parseWeatherCommand (text : jsstr) : Command :=
  let cleanText := trim (replaceWeatherPrefix text) in
  let (first, others) := split2 isDelimiter cleanText in      (* parts[0], parts.slice(1) *)
  let location := orElse (trim first) (js "") in
  let preferences := orElse (trim (join (js " ") others)) (js "") in
  {| location := location; preferences := preferences |}.

(** ** The message handler *)

Record Message := { chat_id : Z; msg_text : option jsstr }.

Definition isWeatherRequest (text : jsstr) : bool :=
  startsWith (toLowerCase text) (js "/weather")
  || includes (toLowerCase text) (js "weather")
  || startsWith (toLowerCase text) (js "/w ").

Definition usageHint : jsstr :=
  js "🌤️ Please provide a location!\n\nExamples:\n• /weather New York\n• /weather London, outdoor activities\n• /weather Tokyo, running".

Definition fetchApology : jsstr :=
  js "❌ Sorry, I couldn't get weather information right now. Please try again.".

Definition genericApology : jsstr :=
  js "❌ Something went wrong. Please try again.".

Definition buttons (location : jsstr) : list (list Button) :=
  [ [ {| text := js "🌤 Today"; callback_data := js "today_" ++ location |} ];
    [ {| text := js "📅 Tomorrow"; callback_data := js "tomorrow_" ++ location |} ];
    [ {| text := js "🔮 3 Days"; callback_data := js "3days_" ++ location |} ];
    [ {| text := js "🧥 Clothing Tips"; callback_data := js "clothes_" ++ location |} ];
    [ {| text := js "🎯 Activities"; callback_data := js "activities_" ++ location |} ];
    [ {| text := js "📊 Full Forecast"; callback_data := js "forecast_" ++ location |} ] ].

(** [{ parse_mode: "Markdown" }]; the preview key is absent ([false]). *)
Definition markdown : option SendOptions :=
  Some {| parse_mode := js "Markdown"; disable_web_page_preview := false;
          reply_markup := None |}.

Definition onMessage (rt : Runtime) (msg : Message) : M unit :=
  let chatId := chat_id msg in
  tryCatch
    (match msg_text msg with
     | None => throw TypeError                       (* undefined.toLowerCase() *)
     | Some text =>
       if isWeatherRequest text then
         emit (SendChatAction chatId (js "typing")) ;;;
         let cmd := parseWeatherCommand text in
         if negb (truthy (location cmd)) then
           emit (SendMessage chatId usageHint None)
         else
           tryCatch
             (weatherData <- getWeatherInfo rt (location cmd) (Some (preferences cmd)) ;;
              let formattedMessage := formatWeatherMessage rt weatherData in
              emit (SendMessage chatId formattedMessage
                      (Some {| parse_mode := js "Markdown";
                               disable_web_page_preview := true;
                               reply_markup := Some (buttons (location cmd)) |})))
             (fun err => emit (SendMessage chatId fetchApology None))
       else ret tt
     end)
    (fun error => emit (SendMessage chatId genericApology None)).

(** ** The callback handler *)

Record CallbackQuery := { id : jsstr; cb_chat_id : Z; data : option jsstr }.

Definition isUnderscore (c : CodeUnit) : bool := (c =? 95)%N.

(** [const [action, ...locParts] = data.split("_"); locParts.join("_")]. *)
Definition decodeCallback (data : jsstr) : jsstr * jsstr :=
  let (action, locParts) := split2 isUnderscore data in
  (action, join (js "_") locParts).

Definition buttonApology : jsstr := js "❌ Could not fetch info for that option.".

Definition dayMessage (rt : Runtime) (title location : jsstr) (day : WeatherForecast.t)
  : jsstr :=
  title ++ location ++ js ":*\nHigh: " ++ numToString rt (WeatherForecast.high_temp day)
  ++ js "°C\nLow: " ++ numToString rt (WeatherForecast.low_temp day)
  ++ js "°C\nCondition: " ++ WeatherForecast.condition day.

Definition onCallback (rt : Runtime) (callbackQuery : CallbackQuery) : M unit :=
  let chatId := cb_chat_id callbackQuery in
  emit (AnswerCallbackQuery (id callbackQuery)) ;;;
  match data callbackQuery with
  | None => throw TypeError                          (* undefined.split("_") *)
  | Some data =>
    let (action, location) := decodeCallback data in
    tryCatch
      (weatherData <- getWeatherInfo rt location None ;;
       let forecast := Output.forecast weatherData in
       if JS.eqb action (js "today") then
         match nth_error (itemsOf forecast) 0 with
         | Some today =>
           emit (SendMessage chatId
                   (dayMessage rt (js "🌤️ *Today's Forecast for ") location today)
                   markdown)
         | None => ret tt
         end
       else if JS.eqb action (js "tomorrow") then
         match nth_error (itemsOf forecast) 1 with
         | Some tomorrow =>
           emit (SendMessage chatId
                   (dayMessage rt (js "📅 *Tomorrow's Forecast for ") location tomorrow)
                   markdown)
         | None => ret tt
         end
       else if JS.eqb action (js "3days") then
         let next3 := option_map (firstn 3) forecast in
         if hasItems next3 then
           let msg := js "🔮 *3-Day Forecast for " ++ location ++ js ":*\n\n" in
           emit (SendMessage chatId (appendEach (dayLine rt) (itemsOf next3) msg) markdown)
         else ret tt
       else if JS.eqb action (js "clothes") then
         if hasItems (Output.clothing_suggestions weatherData) then
           let msg := js "🧥 *Clothing Tips for " ++ location ++ js ":*\n\n" in
           emit (SendMessage chatId
                   (appendEach bullet (itemsOf (Output.clothing_suggestions weatherData)) msg)
                   markdown)
         else ret tt
       else if JS.eqb action (js "activities") then
         if hasItems (Output.activity_recommendations weatherData) then
           let msg := js "🎯 *Activity Suggestions for " ++ location ++ js ":*\n\n" in
           emit (SendMessage chatId
                   (appendEach bullet
                      (itemsOf (Output.activity_recommendations weatherData)) msg)
                   markdown)
         else ret tt
       else if JS.eqb action (js "forecast") then
         if hasItems forecast then
           let msg := js "📊 *Full Forecast for " ++ location ++ js ":*\n\n" in
           emit (SendMessage chatId (appendEach (dayLine rt) (itemsOf forecast) msg) markdown)
         else ret tt
       else ret tt)
      (fun err => emit (SendMessage chatId buttonApology None))
  end.

End Bot.

(* ================================================================== *)
(** * src/api/bot.js: the callback decoder                              *)
(* ================================================================== *)

Module ApiBot.

(** [const [action, location] = data.split("_")]: the second element of
    the array, [undefined] ([None]) when there is none. *)
Definition decodeCallback (data : jsstr) : jsstr * option jsstr :=
  let (action, rest) := split2 Bot.isUnderscore data in
  (action, hd_error rest).

End ApiBot.

(* ================================================================== *)
(** * The stand-alone serverless handler: its formatter                 *)
(* ================================================================== *)

Module Serverless.

Definition bulletList (l : list jsstr) : jsstr :=
  join (js "\n") (List.map (fun i => js "• " ++ i) l).

Definition formatWeatherMessage (rt : Runtime) (weatherData : Output.t) : jsstr :=
  let current_weather := Output.current_weather weatherData in
  let forecast := Output.forecast weatherData in
  let clothing_suggestions := Output.clothing_suggestions weatherData in
  let activity_recommendations := Output.activity_recommendations weatherData in
  let message :=
    js "🌤️ *Weather for " ++ WeatherInfo.location current_weather ++ js "*\n\n" in
  let message :=
    if optTruthy (WeatherInfo.current_temp current_weather)
    then message ++ js "🌡️ Temp: "
                 ++ showOpt rt (WeatherInfo.current_temp current_weather) ++ js "°C\n"
    else message in
  let message :=
    message ++ js "Condition: " ++ WeatherInfo.condition current_weather ++ js "\n" in
  let message :=
    if optTruthy (WeatherInfo.humidity current_weather)
    then message ++ js "💧 Humidity: "
                 ++ showOpt rt (WeatherInfo.humidity current_weather) ++ js "%\n"
    else message in
  let message :=
    if optTruthy (WeatherInfo.wind_speed current_weather)
    then message ++ js "💨 Wind: "
                 ++ showOpt rt (WeatherInfo.wind_speed current_weather) ++ js " km/h\n"
    else message in
  let message :=
    if hasItems forecast
    then appendEach (Bot.dayLine rt) (firstn 3 (itemsOf forecast))
                    (message ++ js "\n📅 *Forecast (next 3 days):*\n")
    else message in
  let message :=
    if hasItems clothing_suggestions
    then message ++ js "\n👕 *What to wear:*\n"
                 ++ bulletList (itemsOf clothing_suggestions) ++ js "\n"
    else message in
  let message :=
    if hasItems activity_recommendations
    then message ++ js "\n🎯 *Activities:*\n"
                 ++ bulletList (itemsOf activity_recommendations) ++ js "\n"
    else message in
  let message :=
    if hasItems (WeatherInfo.recommendations current_weather)
    then message ++ js "\n💡 *Tips:*\n"
                 ++ bulletList (itemsOf (WeatherInfo.recommendations current_weather))
                 ++ js "\n"
    else message in
  message.

Definition renderLine (rt : Runtime) (l : Line) : jsstr :=
  match l with
  | Header location => js "🌤️ *Weather for " ++ location ++ js "*\n\n"
  | CurrentTitle => []
  | TemperatureLine t => js "🌡️ Temp: " ++ numToString rt t ++ js "°C\n"
  | ConditionLine c => js "Condition: " ++ c ++ js "\n"
  | HumidityLine h => js "💧 Humidity: " ++ numToString rt h ++ js "%\n"
  | WindLine v => js "💨 Wind: " ++ numToString rt v ++ js " km/h\n"
  | ForecastTitle => js "\n📅 *Forecast (next 3 days):*\n"
  | DayLine day => Bot.dayLine rt day
  | ClothingTitle => js "\n👕 *What to wear:*\n"
  | ActivityTitle => js "\n🎯 *Activities:*\n"
  | TipsTitle => js "\n💡 *Tips:*\n"
  | ClothingItem i | ActivityItem i | TipItem i => Bot.bullet i
  end.

Definition messageLines : Output.t -> list Line := summaryLines false.

End Serverless.

(* ================================================================== *)
(** * Updates                                                           *)
(* ================================================================== *)

(** [bot.on("message", ...)] and [bot.on("callback_query", ...)]: an update
    goes to the handler registered for its kind. *)
Inductive Update :=
| MessageUpdate (msg : Bot.Message)
| CallbackUpdate (callbackQuery : Bot.CallbackQuery).

Definition processUpdate (rt : Runtime) (u : Update) : M unit :=
  match u with
  | MessageUpdate msg => Bot.onMessage rt msg
  | CallbackUpdate q => Bot.onCallback rt q
  end.

Definition chatOf (u : Update) : Z :=
  match u with
  | MessageUpdate msg => Bot.chat_id msg
  | CallbackUpdate q => Bot.cb_chat_id q
  end.

(** The fixed text each path sends when the fetch throws. *)
Definition apologyOf (u : Update) : jsstr :=
  match u with
  | MessageUpdate _ => Bot.fetchApology
  | CallbackUpdate _ => Bot.buttonApology
  end.

(** The messages of a trace, with their chats. *)
Fixpoint sentMessages (t : list Event) : list (Z * jsstr) :=
  match t with
  | [] => []
  | SendMessage chat message _ :: r => (chat, message) :: sentMessages r
  | _ :: r => sentMessages r
  end.

(** The prompts of the calls to the model in a trace. *)
Fixpoint modelCalls (t : list Event) : list jsstr :=
  match t with
  | [] => []
  | GenerateObject p :: r => p :: modelCalls r
  | _ :: r => modelCalls r
  end.

(** The two ways a fetch fails: the call itself, or its answer against the
    schema. *)
Definition fetchFailed (rt : Runtime) (prompt : jsstr) : Prop :=
  reply rt prompt = None
  \/ exists j, reply rt prompt = Some j /\ Zod.isValid (validate j) = false.

(** The payload of a button: the template [`<action>_${location}`]. *)
Definition encodeCallback (action location : jsstr) : jsstr :=
  action ++ js "_" ++ location.

Definition actions : list jsstr :=
  [js "today"; js "tomorrow"; js "3days"; js "clothes"; js "activities"; js "forecast"].

Definition noUnderscore (s : jsstr) : bool :=
  forallb (fun c => negb (Bot.isUnderscore c)) s.

Definition payloads (keyboard : list (list Button)) : list (list jsstr) :=
  List.map (List.map callback_data) keyboard.

(* ================================================================== *)
(** * src/api/bot.js: the handlers                                      *)
(* ================================================================== *)

(** [formatWeatherMessage], [parseWeatherCommand], the button texts and the
    fixed messages of this file are those of src/bot.js; the prompt, the
    guard on a missing text and the decoding of the payload differ. *)
Module ApiHandlers.

Definition prompt (location preferences : jsstr) : jsstr :=
  js "\nYou are Weather Assistant AI. Given the user’s location and preferences,\n"
  ++ js "provide current weather information and helpful recommendations.\n\n"
  ++ js "Return ONLY valid JSON that matches this shape:\n{\n"
  ++ Bot.quoted "current_weather" ++ js ": {\n"
  ++ Bot.quoted "location" ++ js ": string,\n"
  ++ Bot.quoted "current_temp" ++ js "?: number,\n"
  ++ Bot.quoted "condition" ++ js ": string,\n"
  ++ Bot.quoted "humidity" ++ js "?: number,\n"
  ++ Bot.quoted "wind_speed" ++ js "?: number,\n"
  ++ Bot.quoted "recommendations" ++ js "?: string[]\n},\n"
  ++ Bot.quoted "forecast" ++ js "?: [\n{"
  ++ Bot.quoted "date" ++ js ": string, "
  ++ Bot.quoted "high_temp" ++ js ": number, "
  ++ Bot.quoted "low_temp" ++ js ": number, "
  ++ Bot.quoted "condition" ++ js ": string}\n],\n"
  ++ Bot.quoted "clothing_suggestions" ++ js "?: string[],\n"
  ++ Bot.quoted "activity_recommendations" ++ js "?: string[]\n}\n\n"
  ++ js "Location: " ++ location ++ js "\n"
  ++ js "Preferences: " ++ preferences ++ js "\n"
  ++ js "Date: today\n".

(** A value that may be [undefined] inside a template literal. *)
Definition interpolate (o : option jsstr) : jsstr :=
  match o with Some s => s | None => js "undefined" end.

Definition getWeatherInfo (rt : Runtime) (location preferences : option jsstr)
  : M Output.t :=
  let preferences := match preferences with Some p => p | None => js "" end in
  tryCatch (generateObject rt Output.schema (prompt (interpolate location) preferences))
           (fun error => throw error).

Definition onMessage (rt : Runtime) (msg : Bot.Message) : M unit :=
  let chatId := Bot.chat_id msg in
  match Bot.msg_text msg with
  | None => ret tt                                   (* if (!text) return *)
  | Some text =>
    if negb (truthy text) then ret tt
    else
      tryCatch
        (if Bot.isWeatherRequest text then
           emit (SendChatAction chatId (js "typing")) ;;;
           let cmd := Bot.parseWeatherCommand text in
           if negb (truthy (Bot.location cmd)) then
             emit (SendMessage chatId Bot.usageHint None)
           else
             tryCatch
               (weatherData <- getWeatherInfo rt (Some (Bot.location cmd))
                                 (Some (Bot.preferences cmd)) ;;
                let formattedMessage := Bot.formatWeatherMessage rt weatherData in
                emit (SendMessage chatId formattedMessage
                        (Some {| parse_mode := js "Markdown";
                                 disable_web_page_preview := true;
                                 reply_markup := Some (Bot.buttons (Bot.location cmd)) |})))
               (fun err => emit (SendMessage chatId Bot.fetchApology None))
         else ret tt)
        (fun error => emit (SendMessage chatId Bot.genericApology None))
  end.

(** The chain of tests on [action], after the fetch: the view to send. *)
Definition respond (rt : Runtime) (chatId : Z) (action location : jsstr)
           (weatherData : Output.t) : M unit :=
  let forecast := Output.forecast weatherData in
  if JS.eqb action (js "today") then
    match nth_error (itemsOf forecast) 0 with
    | Some today =>
      emit (SendMessage chatId
              (Bot.dayMessage rt (js "🌤️ *Today's Forecast for ") location today)
              Bot.markdown)
    | None => ret tt
    end
  else if JS.eqb action (js "tomorrow") then
    match nth_error (itemsOf forecast) 1 with
    | Some tomorrow =>
      emit (SendMessage chatId
              (Bot.dayMessage rt (js "📅 *Tomorrow's Forecast for ") location tomorrow)
              Bot.markdown)
    | None => ret tt
    end
  else if JS.eqb action (js "3days") then
    let next3 := option_map (firstn 3) forecast in
    if hasItems next3 then
      let msg := js "🔮 *3-Day Forecast for " ++ location ++ js ":*\n\n" in
      emit (SendMessage chatId (appendEach (Bot.dayLine rt) (itemsOf next3) msg)
              Bot.markdown)
    else ret tt
  else if JS.eqb action (js "clothes") then
    if hasItems (Output.clothing_suggestions weatherData) then
      let msg := js "🧥 *Clothing Tips for " ++ location ++ js ":*\n\n" in
      emit (SendMessage chatId
              (appendEach Bot.bullet (itemsOf (Output.clothing_suggestions weatherData)) msg)
              Bot.markdown)
    else ret tt
  else if JS.eqb action (js "activities") then
    if hasItems (Output.activity_recommendations weatherData) then
      let msg := js "🎯 *Activity Suggestions for " ++ location ++ js ":*\n\n" in
      emit (SendMessage chatId
              (appendEach Bot.bullet
                 (itemsOf (Output.activity_recommendations weatherData)) msg)
              Bot.markdown)
    else ret tt
  else if JS.eqb action (js "forecast") then
    if hasItems forecast then
      let msg := js "📊 *Full Forecast for " ++ location ++ js ":*\n\n" in
      emit (SendMessage chatId (appendEach (Bot.dayLine rt) (itemsOf forecast) msg)
              Bot.markdown)
    else ret tt
  else ret tt.

Definition onCallback (rt : Runtime) (callbackQuery : Bot.CallbackQuery) : M unit :=
  let chatId := Bot.cb_chat_id callbackQuery in
  emit (AnswerCallbackQuery (Bot.id callbackQuery)) ;;;
  match Bot.data callbackQuery with
  | None => throw TypeError
  | Some data =>
    let (action, location) := ApiBot.decodeCallback data in
    tryCatch
      (weatherData <- getWeatherInfo rt location None ;;
       respond rt chatId action (interpolate location) weatherData)
      (fun err => emit (SendMessage chatId Bot.buttonApology None))
  end.

End ApiHandlers.

(* ================================================================== *)
(** * The stand-alone serverless handler: its message handler           *)
(* ================================================================== *)

Module ServerlessHandlers.

Definition prompt (location preferences : jsstr) : jsstr :=
  js "\nYou are Weather Assistant AI. Given the user’s location and preferences,\n"
  ++ js "provide current weather information and helpful recommendations.\n\n"
  ++ js "Return ONLY valid JSON:\n{\n"
  ++ Bot.quoted "current_weather" ++ js ": {...},\n"
  ++ Bot.quoted "forecast" ++ js "?: [...],\n"
  ++ Bot.quoted "clothing_suggestions" ++ js "?: string[],\n"
  ++ Bot.quoted "activity_recommendations" ++ js "?: string[]\n}\n\n"
  ++ js "Location: " ++ location ++ js "\n"
  ++ js "Preferences: " ++ preferences ++ js "\n"
  ++ js "Date: today\n".

Definition getWeatherInfo (rt : Runtime) (location preferences : jsstr) : M Output.t :=
  generateObject rt Output.schema (prompt location preferences).

(** A match of a lower-case ASCII pattern somewhere, with the [i] flag. *)
Fixpoint includesCI (s p : jsstr) : bool :=
  startsWithCI s p || match s with [] => false | _ :: r => includesCI r p end.

(** [/^\/weather|weather|^\/w\s/i.test(text)]. *)
Definition isWeatherRequest (text : jsstr) : bool :=
  startsWithCI text (js "/weather")
  || includesCI text (js "weather")
  || (startsWithCI text (js "/w")
      && match skipn 2 text with c :: _ => isWhiteSpace c | [] => false end).

Definition usageHint : jsstr :=
  js "🌤️ Please provide a location!\nExample:\n/weather London, running".

Definition fetchApology : jsstr := js "❌ Could not fetch weather info.".

Definition onMessage (rt : Runtime) (msg : Bot.Message) : M unit :=
  let chatId := Bot.chat_id msg in
  match Bot.msg_text msg with
  | None => ret tt
  | Some text =>
    if negb (truthy text) then ret tt
    else if isWeatherRequest text then
      let cmd := Bot.parseWeatherCommand text in
      if negb (truthy (Bot.location cmd)) then
        emit (SendMessage chatId usageHint None)
      else
        tryCatch
          (emit (SendChatAction chatId (js "typing")) ;;;
           weatherData <- getWeatherInfo rt (Bot.location cmd) (Bot.preferences cmd) ;;
           let formatted := Serverless.formatWeatherMessage rt weatherData in
           emit (SendMessage chatId formatted Bot.markdown))
          (fun _ => emit (SendMessage chatId fetchApology None))
    else ret tt
  end.

End ServerlessHandlers.

(* ================================================================== *)
(** * The specification's own words                                     *)
(* ================================================================== *)

Module Spec.

(** ** Command Parser: strip a leading [/weather] token (any case, with
    the white space after it), split on comma, semicolon or pipe; the first
    segment trimmed is the location, the others joined with single spaces
    and trimmed are the preferences. *)

Definition hasWeatherToken (text : jsstr) : bool :=
  JS.eqb (toLowerCase (firstn 8 text)) (js "/weather").

(** The two fields read off the text that remains. *)
Definition segments (remaining : jsstr) : Bot.Command :=
  let (first, others) := split2 Bot.isDelimiter remaining in
  {| Bot.location := trim first;
     Bot.preferences := trim (join (js " ") others) |}.

Definition parseWeatherCommand (text : jsstr) : Bot.Command :=
  segments (if hasWeatherToken text then trimStart (skipn 8 text) else text).

(** ** Data model and invariants of a WeatherReport, on a parsed JSON value *)

Definition isText (v : Json) : Prop := exists s, v = JStr s.
Definition isNonEmptyText (v : Json) : Prop := exists s, v = JStr s /\ s <> [].
Definition isNumber (v : Json) : Prop := exists q, v = JNum q.
Definition isIntegerWithin (lo hi : Q) (v : Json) : Prop :=
  exists q, v = JNum q /\ (exists z : Z, q == inject_Z z) /\ lo <= q /\ q <= hi.
Definition isNonNegative (v : Json) : Prop := exists q, v = JNum q /\ 0 <= q.
Definition isListOf (P : Json -> Prop) (v : Json) : Prop :=
  exists l, v = JArr l /\ Forall P l.
Definition hasLengthWithin (lo hi : nat) (v : Json) : Prop :=
  exists l, v = JArr l /\ (lo <= List.length l <= hi)%nat.

Definition required (o : list (jsstr * Json)) (k : string) (P : Json -> Prop) : Prop :=
  exists v, getField (js k) o = Some v /\ P v.
Definition optional (o : list (jsstr * Json)) (k : string) (P : Json -> Prop) : Prop :=
  forall v, getField (js k) o = Some v -> P v.

Definition WeatherInfo (v : Json) : Prop :=
  exists o, v = JObj o
  /\ required o "location" isNonEmptyText
  /\ optional o "current_temp" isNumber
  /\ required o "condition" isText
  /\ optional o "humidity" (isIntegerWithin 0 100)
  /\ optional o "wind_speed" isNonNegative
  /\ optional o "recommendations" (isListOf isText).

Definition ForecastDay (v : Json) : Prop :=
  exists o, v = JObj o
  /\ required o "date" isText
  /\ required o "high_temp" isNumber
  /\ required o "low_temp" isNumber
  /\ required o "condition" isText.

Definition WeatherReport (v : Json) : Prop :=
  exists o, v = JObj o
  /\ required o "current_weather" WeatherInfo
  /\ optional o "forecast" (fun f => isListOf ForecastDay f /\ hasLengthWithin 1 7 f)
  /\ optional o "clothing_suggestions" (isListOf isText)
  /\ optional o "activity_recommendations" (isListOf isText).

End Spec.

(* ================================================================== *)
(** * Auxiliary definitions of the proofs                               *)
(* ================================================================== *)

Definition allWhiteSpace (w : jsstr) : bool := forallb isWhiteSpace w.

(** [appLast t w]: [w] appended to the last segment. *)
Fixpoint appLast (t : list jsstr) (w : jsstr) : list jsstr :=
  match t with
  | [] => []
  | [x] => [x ++ w]
  | x :: r => x :: appLast r w
  end.

(** Location and preferences read off the segments of a text. *)
Definition fields (s : jsstr) : jsstr * jsstr :=
  (trim (fst (split2 Bot.isDelimiter s)),
   trim (join (js " ") (snd (split2 Bot.isDelimiter s)))).

(** [piece] occurs in [message]. *)
Definition contains (message piece : jsstr) : Prop :=
  exists before after, message = before ++ piece ++ after.

(** ** Sample data *)

(** A runtime for the examples: integers print in decimal (the examples
    hold no other number), and the service answers [answer] to every
    prompt. *)
Definition sampleRuntime (answer : option Json) : Runtime :=
  {| numToString := fun q => js (NilZero.string_of_int (Z.to_int (Qfloor q)));
     reply := fun _ => answer |}.

(** A report with every optional field absent. *)
Definition minimalJson : Json :=
  JObj [(js "current_weather",
         JObj [(js "location", JStr (js "Oslo")); (js "condition", JStr (js "Snow"))])].

Definition minimalReport : Output.t :=
  Output.mk (WeatherInfo.mk (js "Oslo") None (js "Snow") None None None) None None None.

(** A report whose three optional numbers are present and zero. *)
Definition zeroJson : Json :=
  JObj [(js "current_weather",
         JObj [(js "location", JStr (js "Oslo")); (js "current_temp", JNum 0);
               (js "condition", JStr (js "Snow")); (js "humidity", JNum 0);
               (js "wind_speed", JNum 0)])].

Definition zeroReport : Output.t :=
  Output.mk (WeatherInfo.mk (js "Oslo") (Some 0) (js "Snow") (Some 0) (Some 0) None)
            None None None.

(** The object of the specification's rejection example. *)
Definition rejectedJson : Json :=
  JObj [(js "current_weather",
         JObj [(js "location", JStr (js "Oslo")); (js "condition", JStr (js "Snow"));
               (js "humidity", JNum 150)]);
        (js "forecast", JArr [])].

(** A report with a forecast of five days. *)
Definition dayJson (date : string) (high low : Z) (condition : string) : Json :=
  JObj [(js "date", JStr (js date)); (js "high_temp", JNum (inject_Z high));
        (js "low_temp", JNum (inject_Z low)); (js "condition", JStr (js condition))].

Definition day (date : string) (high low : Z) (condition : string) : WeatherForecast.t :=
  WeatherForecast.mk (js date) (inject_Z high) (inject_Z low) (js condition).

Definition fiveDayJson : Json :=
  JObj [(js "current_weather",
         JObj [(js "location", JStr (js "Oslo")); (js "condition", JStr (js "Snow"))]);
        (js "forecast",
         JArr [dayJson "Mon" 3 (-2) "Snow"; dayJson "Tue" 4 (-1) "Cloudy";
               dayJson "Wed" 5 0 "Sunny"; dayJson "Thu" 2 (-3) "Snow";
               dayJson "Fri" 1 (-4) "Fog"])].

Definition fiveDays : list WeatherForecast.t :=
  [day "Mon" 3 (-2) "Snow"; day "Tue" 4 (-1) "Cloudy"; day "Wed" 5 0 "Sunny";
   day "Thu" 2 (-3) "Snow"; day "Fri" 1 (-4) "Fog"].

Definition fiveDayReport : Output.t :=
  Output.mk (WeatherInfo.mk (js "Oslo") None (js "Snow") None None None)
            (Some fiveDays) None None.

(** What a fetch with prompt [p] ends with, after the call was made. *)
Definition fetchResult (rt : Runtime) (p : jsstr) : Exn + Output.t :=
  match reply rt p with
  | None => inl GenerationFailure
  | Some j =>
    match validate j with
    | Zod.Valid w => inr w
    | Zod.Invalid issues => inl (SchemaViolation issues)
    end
  end.

(** A weather command, and a press on the Today button of its reply. *)
Definition sampleMessage : Update :=
  MessageUpdate {| Bot.chat_id := 7; Bot.msg_text := Some (js "/weather Paris") |}.

Definition sampleCallback : Update :=
  CallbackUpdate {| Bot.id := js "42"; Bot.cb_chat_id := 7;
                    Bot.data := Some (js "today_Paris") |}.

(** A message that carries no text: a sticker, a photo. *)
Definition textless : Bot.Message :=
  {| Bot.chat_id := 7; Bot.msg_text := None |}.

(** ** Predicates of the further properties *)

Definition noDelimiter (s : jsstr) : bool :=
  forallb (fun c => negb (Bot.isDelimiter c)) s.

Definition noLineFeed (s : jsstr) : bool :=
  forallb (fun c => negb (c =? 10)%N) s.

(** The keyboards of the messages of a trace. *)
Fixpoint keyboards (t : list Event) : list (list (list Button)) :=
  match t with
  | [] => []
  | SendMessage _ _ (Some o) :: r =>
    match reply_markup o with
    | Some k => k :: keyboards r
    | None => keyboards r
    end
  | _ :: r => keyboards r
  end.

(** What the schema guarantees of the report it returns. *)
Definition WellFormed (w : Output.t) : Prop :=
  WeatherInfo.location (Output.current_weather w) <> []
  /\ (forall h, WeatherInfo.humidity (Output.current_weather w) = Some h ->
               (exists z : Z, h == inject_Z z) /\ 0 <= h /\ h <= 100)
  /\ (forall v, WeatherInfo.wind_speed (Output.current_weather w) = Some v -> 0 <= v)
  /\ (forall days, Output.forecast w = Some days ->
                  (1 <= List.length days <= 7)%nat).

(** The root keys the schema reads. *)
Definition rootKeys : list jsstr :=
  [js "current_weather"; js "forecast"; js "clothing_suggestions";
   js "activity_recommendations"].

(** A rejection that names at least one issue. *)
Definition namesIssue {A} (p : Zod.Parsed A) : Prop := p <> Zod.Invalid [].

(** The fields of the minimal report, alone and among unknown keys. *)
Definition annotatedJson : list (jsstr * Json) :=
  [(js "note", JStr (js "generated"));
   (js "current_weather",
    JObj [(js "location", JStr (js "Oslo")); (js "condition", JStr (js "Snow"))]);
   (js "model", JNum 70)].

Definition minimalFields : list (jsstr * Json) :=
  [(js "current_weather",
    JObj [(js "location", JStr (js "Oslo")); (js "condition", JStr (js "Snow"))])].

(** The messages sent when the button [action] of a reply for [location]
    is pressed (src/bot.js). *)
Definition pressed (rt : Runtime) (id : jsstr) (chat : Z) (action location : jsstr)
  : list (Z * jsstr) :=
  sentMessages
    (trace (Bot.onCallback rt
              {| Bot.id := id; Bot.cb_chat_id := chat;
                 Bot.data := Some (encodeCallback action location) |})).

(** Kinds of pieces of a summary. *)
Definition isCurrentBlock (l : Line) : bool :=
  match l with
  | Header _ | CurrentTitle | TemperatureLine _ | ConditionLine _
  | HumidityLine _ | WindLine _ => true
  | _ => false
  end.

Definition inForecast (l : Line) : bool :=
  match l with ForecastTitle | DayLine _ => true | _ => false end.
Definition inClothing (l : Line) : bool :=
  match l with ClothingTitle | ClothingItem _ => true | _ => false end.
Definition inActivities (l : Line) : bool :=
  match l with ActivityTitle | ActivityItem _ => true | _ => false end.
Definition inTips (l : Line) : bool :=
  match l with TipsTitle | TipItem _ => true | _ => false end.

Unset Implicit Arguments.

(* ================================================================== *)
(** * Strings: split, join, trim                                        *)
(* ================================================================== *)

Lemma eqb_eq (a b : jsstr) : JS.eqb a b = true <-> a = b.
Proof.
  revert b; induction a as [|x a IH]; intros [|y b]; simpl;
    try (split; congruence).
  rewrite andb_true_iff, N.eqb_eq, IH. split.
  - intros [-> ->]; reflexivity.
  - intros H; inversion H; auto.
Qed.

Lemma eqb_refl (a : jsstr) : JS.eqb a a = true.
Proof. apply eqb_eq; reflexivity. Qed.

Lemma split2_no_delimiter d (a : jsstr) :
  forallb (fun c => negb (d c)) a = true -> split2 d a = (a, []).
Proof.
  induction a as [|c a IH]; simpl; [reflexivity|].
  rewrite andb_true_iff, negb_true_iff. intros [Hc Ha].
  rewrite (IH Ha), Hc. reflexivity.
Qed.

Lemma split2_app d (a : jsstr) (c : CodeUnit) (r : jsstr) :
  forallb (fun c => negb (d c)) a = true -> d c = true ->
  split2 d (a ++ c :: r) = (a, split d r).
Proof.
  intros Ha Hc. induction a as [|x a IH]; simpl in *.
  - unfold split. destruct (split2 d r). rewrite Hc. reflexivity.
  - apply andb_true_iff in Ha as [Hx Ha]. apply negb_true_iff in Hx.
    rewrite (IH Ha), Hx. reflexivity.
Qed.

Lemma join_split_underscore (s : jsstr) :
  join (js "_") (split Bot.isUnderscore s) = s.
Proof.
  unfold split. induction s as [|c s IH]; simpl; [reflexivity|].
  destruct (split2 Bot.isUnderscore s) as [h t].
  destruct (Bot.isUnderscore c) eqn:E.
  - apply N.eqb_eq in E. subst c. simpl in *. rewrite IH. reflexivity.
  - destruct t; simpl in *; rewrite <- IH; reflexivity.
Qed.

(** ** White space at the ends *)

Lemma trimStart_ws_app (w s : jsstr) :
  allWhiteSpace w = true -> trimStart (w ++ s) = trimStart s.
Proof.
  induction w as [|c w IH]; simpl; [reflexivity|].
  rewrite andb_true_iff. intros [Hc Hw]. rewrite Hc. auto.
Qed.

Lemma trimStart_ws (w : jsstr) : allWhiteSpace w = true -> trimStart w = [].
Proof.
  intros H. rewrite <- (app_nil_r w). rewrite trimStart_ws_app; auto.
Qed.

Lemma trimEnd_ws (w : jsstr) : allWhiteSpace w = true -> trimEnd w = [].
Proof.
  induction w as [|c w IH]; simpl; [reflexivity|].
  rewrite andb_true_iff. intros [Hc Hw]. rewrite (IH Hw), Hc. reflexivity.
Qed.

Lemma trimEnd_app_ws (s w : jsstr) :
  allWhiteSpace w = true -> trimEnd (s ++ w) = trimEnd s.
Proof.
  intros Hw. induction s as [|c s IH]; simpl.
  - apply trimEnd_ws; assumption.
  - rewrite IH. reflexivity.
Qed.

Lemma trimEnd_cons (c : CodeUnit) (s : jsstr) :
  isWhiteSpace c = false -> trimEnd (c :: s) = c :: trimEnd s.
Proof. intros Hc. simpl. rewrite Hc. destruct (trimEnd s); reflexivity. Qed.

Lemma trimStart_split (s : jsstr) :
  exists w, allWhiteSpace w = true /\ s = w ++ trimStart s.
Proof.
  induction s as [|c s [w [Hw E]]]; simpl.
  - exists []; auto.
  - destruct (isWhiteSpace c) eqn:Hc.
    + exists (c :: w). simpl. rewrite Hc, Hw. split; [reflexivity|congruence].
    + exists []. auto.
Qed.

Lemma trimEnd_split (s : jsstr) :
  exists w, allWhiteSpace w = true /\ s = trimEnd s ++ w.
Proof.
  induction s as [|c s [w [Hw E]]]; simpl.
  - exists []; auto.
  - destruct (trimEnd s) as [|x r] eqn:Et.
    + destruct (isWhiteSpace c) eqn:Hc.
      * exists (c :: w). simpl in *. rewrite Hc, Hw. split; [reflexivity|congruence].
      * exists w. simpl in *. split; [assumption|congruence].
    + exists w. split; [assumption|]. simpl in *. congruence.
Qed.

Lemma trim_ws_app (w s : jsstr) : allWhiteSpace w = true -> trim (w ++ s) = trim s.
Proof. intros H. unfold trim. rewrite trimStart_ws_app; auto. Qed.

Lemma trim_app_ws (s w : jsstr) : allWhiteSpace w = true -> trim (s ++ w) = trim s.
Proof.
  intros Hw. unfold trim. induction s as [|c s IH]; simpl.
  - rewrite (trimStart_ws w Hw). reflexivity.
  - destruct (isWhiteSpace c); [exact IH|].
    apply (trimEnd_app_ws (c :: s) w Hw).
Qed.

Lemma trim_split (s : jsstr) :
  exists w1 w2, allWhiteSpace w1 = true /\ allWhiteSpace w2 = true
                /\ s = w1 ++ trim s ++ w2.
Proof.
  destruct (trimStart_split s) as [w1 [H1 E1]].
  destruct (trimEnd_split (trimStart s)) as [w2 [H2 E2]].
  exists w1, w2. unfold trim. rewrite <- E2. auto.
Qed.

(** ** Segments of a text with white space around it *)

Lemma delimiter_not_ws (c : CodeUnit) :
  Bot.isDelimiter c = true -> isWhiteSpace c = false.
Proof.
  unfold Bot.isDelimiter. rewrite !orb_true_iff, !N.eqb_eq.
  intros [[-> | ->] | ->]; reflexivity.
Qed.

Lemma ws_not_delimiter (c : CodeUnit) :
  isWhiteSpace c = true -> Bot.isDelimiter c = false.
Proof.
  intros Hw. destruct (Bot.isDelimiter c) eqn:E; [|reflexivity].
  rewrite (delimiter_not_ws c E) in Hw. discriminate.
Qed.

Lemma split2_ws_cons (c : CodeUnit) (s : jsstr) :
  isWhiteSpace c = true ->
  split2 Bot.isDelimiter (c :: s)
  = (c :: fst (split2 Bot.isDelimiter s), snd (split2 Bot.isDelimiter s)).
Proof.
  intros Hc. simpl. destruct (split2 Bot.isDelimiter s).
  rewrite (ws_not_delimiter c Hc). reflexivity.
Qed.

Lemma split2_app_ws (s w : jsstr) :
  allWhiteSpace w = true ->
  split2 Bot.isDelimiter (s ++ w)
  = match snd (split2 Bot.isDelimiter s) with
    | [] => (fst (split2 Bot.isDelimiter s) ++ w, [])
    | t => (fst (split2 Bot.isDelimiter s), appLast t w)
    end.
Proof.
  intros Hw. induction s as [|c s IH].
  - simpl. apply split2_no_delimiter.
    clear - Hw. induction w as [|c w IH]; simpl in *; [reflexivity|].
    apply andb_true_iff in Hw as [Hc Hw].
    rewrite (ws_not_delimiter c Hc). simpl. auto.
  - simpl. rewrite IH. destruct (split2 Bot.isDelimiter s) as [h t]. simpl.
    destruct t as [|x r]; destruct (Bot.isDelimiter c); reflexivity.
Qed.

Lemma join_appLast (sep : jsstr) (t : list jsstr) (w : jsstr) :
  t <> [] -> join sep (appLast t w) = join sep t ++ w.
Proof.
  induction t as [|x [|y r] IH]; intros Hne; [congruence|reflexivity|].
  change (appLast (x :: y :: r) w) with (x :: appLast (y :: r) w).
  assert (E : exists z r', appLast (y :: r) w = z :: r').
  { destruct r; simpl; eauto. }
  destruct E as [z [r' E]].
  change (join sep (x :: y :: r)) with (x ++ sep ++ join sep (y :: r)).
  rewrite <- !app_assoc. rewrite <- IH by discriminate.
  rewrite E. reflexivity.
Qed.

Lemma fields_ws_app (w s : jsstr) :
  allWhiteSpace w = true -> fields (w ++ s) = fields s.
Proof.
  induction w as [|c w IH]; simpl; [reflexivity|].
  rewrite andb_true_iff. intros [Hc Hw].
  unfold fields. rewrite (split2_ws_cons c (w ++ s) Hc). simpl fst. simpl snd.
  specialize (IH Hw). unfold fields in IH.
  rewrite <- IH. f_equal.
  apply (trim_ws_app [c] (fst (split2 Bot.isDelimiter (w ++ s)))).
  simpl. rewrite Hc. reflexivity.
Qed.

Lemma fields_app_ws (s w : jsstr) :
  allWhiteSpace w = true -> fields (s ++ w) = fields s.
Proof.
  intros Hw. unfold fields. rewrite (split2_app_ws s w Hw).
  destruct (split2 Bot.isDelimiter s) as [h t]. cbn [fst snd].
  destruct t as [|x r]; cbn [fst snd].
  - rewrite trim_app_ws by assumption. reflexivity.
  - rewrite join_appLast by discriminate.
    rewrite trim_app_ws by assumption. reflexivity.
Qed.

Lemma fields_trim (s : jsstr) : fields (trim s) = fields s.
Proof.
  destruct (trim_split s) as [w1 [w2 [H1 [H2 E]]]].
  rewrite E at 2. rewrite fields_ws_app, fields_app_ws by assumption.
  reflexivity.
Qed.

Lemma orElse_empty (s : jsstr) : orElse s (js "") = s.
Proof. destruct s; reflexivity. Qed.

(** ** The [/weather] prefix *)

Lemma startsWithCI_firstn (p s : jsstr) :
  startsWithCI s p = JS.eqb (toLowerCase (firstn (List.length p) s)) p.
Proof.
  revert s; induction p as [|x p IH]; intros [|y s]; simpl; try reflexivity.
  rewrite IH, N.eqb_sym. reflexivity.
Qed.

(* ================================================================== *)
(** * Callback payloads                                                 *)
(* ================================================================== *)

Lemma actions_noUnderscore : forallb noUnderscore actions = true.
Proof. reflexivity. Qed.

Lemma buttons_payloads (location : jsstr) :
  payloads (Bot.buttons location)
  = List.map (fun a => [encodeCallback a location]) actions.
Proof. reflexivity. Qed.

Lemma bot_decode_encode (action location : jsstr) :
  noUnderscore action = true ->
  Bot.decodeCallback (encodeCallback action location) = (action, location).
Proof.
  intros Ha. unfold Bot.decodeCallback, encodeCallback.
  change (js "_" ++ location) with (95%N :: location).
  rewrite (@split2_app Bot.isUnderscore action 95%N location Ha eq_refl).
  rewrite join_split_underscore. reflexivity.
Qed.

Lemma split2_underscore_fst (d : jsstr) :
  noUnderscore (fst (split2 Bot.isUnderscore d)) = true.
Proof.
  induction d as [|c d IH]; [reflexivity|].
  simpl. destruct (split2 Bot.isUnderscore d) as [h t]. simpl in *.
  destruct (Bot.isUnderscore c) eqn:E; [reflexivity|].
  unfold noUnderscore in *. simpl. rewrite E, IH. reflexivity.
Qed.

Lemma split2_underscore_none (d : jsstr) :
  noUnderscore d = true -> split2 Bot.isUnderscore d = (d, []).
Proof. apply split2_no_delimiter. Qed.

Lemma api_decode_encode (action location : jsstr) :
  noUnderscore action = true ->
  ApiBot.decodeCallback (encodeCallback action location)
  = (action, Some (fst (split2 Bot.isUnderscore location))).
Proof.
  intros Ha. unfold ApiBot.decodeCallback, encodeCallback.
  change (js "_" ++ location) with (95%N :: location).
  rewrite (@split2_app Bot.isUnderscore action 95%N location Ha eq_refl).
  unfold split. destruct (split2 Bot.isUnderscore location). reflexivity.
Qed.

(** C1.  For every action without an underscore (the six actions of the
    buttons are such) and every location, the handler of src/bot.js decodes
    the payload [<action>_<location>] back to the action and the whole
    location, whatever spaces or underscores the location holds.  The
    handler of src/api/bot.js recovers the action but, of the location, only
    the part before its first underscore: it gives back the location exactly
    when the location holds no underscore, and a shorter one otherwise. *)
Theorem callback_payload_decoding (action location : jsstr) :
  noUnderscore action = true ->
  Bot.decodeCallback (encodeCallback action location) = (action, location)
  /\ ApiBot.decodeCallback (encodeCallback action location)
     = (action, Some (fst (split2 Bot.isUnderscore location)))
  /\ (ApiBot.decodeCallback (encodeCallback action location) = (action, Some location)
      <-> noUnderscore location = true).
Proof.
  intros Ha. split; [apply bot_decode_encode; assumption|].
  rewrite (api_decode_encode action location Ha).
  split; [reflexivity|]. split.
  - intros H. injection H as H.
    pose proof (split2_underscore_fst location) as Hf.
    rewrite H in Hf. exact Hf.
  - intros Hl. rewrite (split2_underscore_none location Hl). reflexivity.
Qed.

(** The Today button of New_York: src/bot.js gives the location back,
    src/api/bot.js gives New. *)
Lemma callback_payload_decoding_witness :
  Bot.decodeCallback (js "today_New_York") = (js "today", js "New_York")
  /\ ApiBot.decodeCallback (js "today_New_York") = (js "today", Some (js "New")).
Proof.
  assert (Ha : noUnderscore (js "today") = true) by (vm_compute; reflexivity).
  destruct (callback_payload_decoding (js "today") (js "New_York") Ha) as [H1 [H2 _]].
  vm_compute in H1, H2 |- *. split; assumption.
Defined.

(** The payload of the specification's example holds one underscore only:
    both handlers decode it alike. *)
Lemma decodeCallback_example :
  Bot.decodeCallback (js "today_New York") = (js "today", js "New York")
  /\ ApiBot.decodeCallback (js "today_New York") = (js "today", Some (js "New York")).
Proof. split; vm_compute; reflexivity. Qed.

(** An action that holds an underscore is cut at it: the payload has no
    other mark of where the action ends. *)
Lemma underscore_action_is_cut :
  Bot.decodeCallback (encodeCallback (js "a_b") (js "Paris"))
  = (js "a", js "b_Paris")
  /\ ApiBot.decodeCallback (encodeCallback (js "a_b") (js "Paris"))
    = (js "a", Some (js "b")).
Proof. split; vm_compute; reflexivity. Qed.

(* ================================================================== *)
(** * The command parser                                                *)
(* ================================================================== *)

Lemma hasWeatherToken_startsWithCI (text : jsstr) :
  Spec.hasWeatherToken text = startsWithCI text (js "/weather").
Proof. unfold Spec.hasWeatherToken. rewrite startsWithCI_firstn. reflexivity. Qed.

Lemma parseWeatherCommand_fields (text : jsstr) :
  Bot.parseWeatherCommand text
  = {| Bot.location := fst (fields (Bot.replaceWeatherPrefix text));
       Bot.preferences := snd (fields (Bot.replaceWeatherPrefix text)) |}.
Proof.
  unfold Bot.parseWeatherCommand. rewrite <- fields_trim. unfold fields.
  destruct (split2 Bot.isDelimiter (trim (Bot.replaceWeatherPrefix text))) as [h t].
  rewrite !orElse_empty. reflexivity.
Qed.

(** A token followed by white space is removed with it; a text without
    the token is kept. *)
Lemma replaceWeatherPrefix_token (token w rest : jsstr) :
  toLowerCase token = js "/weather" -> allWhiteSpace w = true ->
  trimStart rest = rest ->
  Bot.replaceWeatherPrefix (token ++ w ++ rest) = rest.
Proof.
  intros Ht Hw Hr. unfold Bot.replaceWeatherPrefix.
  assert (Hlen : List.length token = 8%nat).
  { unfold toLowerCase in Ht. rewrite <- (length_map lowerUnit), Ht. reflexivity. }
  rewrite startsWithCI_firstn.
  change (List.length (js "/weather")) with 8%nat. rewrite <- Hlen.
  rewrite firstn_app, Nat.sub_diag, firstn_all. simpl firstn. rewrite app_nil_r.
  rewrite Ht, eqb_refl.
  rewrite skipn_app, Nat.sub_diag, skipn_all. simpl.
  rewrite trimStart_ws_app by assumption. exact Hr.
Qed.

Lemma replaceWeatherPrefix_absent (text : jsstr) :
  Spec.hasWeatherToken text = false -> Bot.replaceWeatherPrefix text = text.
Proof.
  rewrite hasWeatherToken_startsWithCI. unfold Bot.replaceWeatherPrefix.
  intros ->. reflexivity.
Qed.

Lemma segments_fields (s : jsstr) :
  Spec.segments s = {| Bot.location := fst (fields s); Bot.preferences := snd (fields s) |}.
Proof.
  unfold Spec.segments, fields. destruct (split2 Bot.isDelimiter s). reflexivity.
Qed.

(** C4.  On every input [parseWeatherCommand] computes what the
    specification describes: the text after a leading [/weather] (in any
    case, with the white space that follows it) is split on comma, semicolon
    or pipe, the first segment trimmed is the location and the other
    segments joined by single spaces and trimmed are the preferences; a text
    without the token is split as it is; the two examples of the
    specification evaluate as stated. *)
Theorem parseWeatherCommand_correct :
  (forall text, Bot.parseWeatherCommand text = Spec.parseWeatherCommand text)
  /\ (forall token space rest,
        toLowerCase token = js "/weather" -> allWhiteSpace space = true ->
        trimStart rest = rest ->
        Bot.parseWeatherCommand (token ++ space ++ rest) = Spec.segments rest)
  /\ (forall text,
        Spec.hasWeatherToken text = false ->
        Bot.parseWeatherCommand text = Spec.segments text)
  /\ Bot.parseWeatherCommand (js "/weather Paris")
     = {| Bot.location := js "Paris"; Bot.preferences := js "" |}
  /\ Bot.parseWeatherCommand (js "/weather Tokyo, outdoor sports")
     = {| Bot.location := js "Tokyo"; Bot.preferences := js "outdoor sports" |}.
Proof.
  split; [|split; [|split; [|split; vm_compute; reflexivity]]].
  - intros text. rewrite parseWeatherCommand_fields.
    unfold Spec.parseWeatherCommand. rewrite segments_fields.
    unfold Bot.replaceWeatherPrefix. rewrite hasWeatherToken_startsWithCI.
    reflexivity.
  - intros token space rest Ht Hs Hr.
    rewrite parseWeatherCommand_fields, segments_fields.
    rewrite (replaceWeatherPrefix_token token space rest Ht Hs Hr). reflexivity.
  - intros text H.
    rewrite parseWeatherCommand_fields, segments_fields.
    rewrite (replaceWeatherPrefix_absent text H). reflexivity.
Qed.

(** The command of the second example in upper case and with a tab, and
    a command whose preferences hold inner spaces: the joined text is
    trimmed at its ends only. *)
Lemma parseWeatherCommand_correct_witness :
  Bot.parseWeatherCommand (js "/WEATHER" ++ [9%N; 32%N] ++ js "Tokyo; a | b ")
  = Spec.segments (js "Tokyo; a | b ")
  /\ Spec.segments (js "Tokyo; a | b ")
     = {| Bot.location := js "Tokyo"; Bot.preferences := js "a   b" |}.
Proof.
  split; [|vm_compute; reflexivity].
  apply (proj1 (proj2 parseWeatherCommand_correct));
    vm_compute; reflexivity.
Defined.

(* ================================================================== *)
(** * The schema                                                        *)
(* ================================================================== *)

Section Acceptance.

Import Zod.

Lemma isValid_ap {A B} (pf : Parsed (A -> B)) (pa : Parsed A) :
  isValid (ap pf pa) = isValid pf && isValid pa.
Proof. destruct pf, pa; reflexivity. Qed.

Lemma isValid_under {A} (seg : PathSeg) (p : Parsed A) :
  isValid (under seg p) = isValid p.
Proof. destruct p; reflexivity. Qed.

Lemma isValid_fmap {A B} (f : A -> B) (p : Parsed A) :
  isValid (fmap f p) = isValid p.
Proof. destruct p; reflexivity. Qed.

Lemma isValid_run {A} (checks : list (A -> bool)) (a : A) :
  isValid (run checks a) = forallb (fun c => c a) checks.
Proof.
  unfold run. induction checks as [|c cs IH]; simpl; [reflexivity|].
  destruct (c a); simpl; [exact IH | reflexivity].
Qed.

Lemma isValid_items {A} (s : Schema A) (i : nat) (l : list Json) :
  isValid (items s i l) = forallb (fun x => isValid (s (Some x))) l.
Proof.
  revert i; induction l as [|x l IH]; intros i; [reflexivity|].
  cbn [items forallb]. rewrite !isValid_ap, isValid_under, IH. reflexivity.
Qed.

Lemma isValid_field {A} (k : jsstr) (s : Schema A) (o : list (jsstr * Json)) :
  isValid (field k s o) = isValid (s (getField k o)).
Proof. apply isValid_under. Qed.

Lemma required_iff {A} (s : Schema A) (P : Json -> Prop) o (k : String.string) :
  isValid (s None) = false ->
  (forall v, isValid (s (Some v)) = true <-> P v) ->
  isValid (field (js k) s o) = true <-> Spec.required o k P.
Proof.
  intros Hnone Hs. rewrite isValid_field. unfold Spec.required.
  destruct (getField (js k) o) as [v|].
  - rewrite Hs. split; [eauto|]. intros [v' [E Hv]]. congruence.
  - rewrite Hnone. split; [discriminate|]. intros [v [E _]]. discriminate.
Qed.

Lemma optional_iff {A} (s : Schema A) (P : Json -> Prop) o (k : String.string) :
  (forall v, isValid (s (Some v)) = true <-> P v) ->
  isValid (field (js k) (optional s) o) = true <-> Spec.optional o k P.
Proof.
  intros Hs. rewrite isValid_field. unfold Spec.optional, optional.
  destruct (getField (js k) o) as [v|]; simpl.
  - rewrite isValid_fmap, Hs. split; [congruence|]. auto.
  - split; [discriminate | reflexivity].
Qed.

Lemma string_iff (v : Json) : isValid (string (Some v)) = true <-> Spec.isText v.
Proof.
  unfold Spec.isText. destruct v; simpl; split; try discriminate; eauto;
    intros [x E]; discriminate.
Qed.

Lemma number_iff (v : Json) : isValid (number (Some v)) = true <-> Spec.isNumber v.
Proof.
  unfold Spec.isNumber. destruct v; simpl; split; try discriminate; eauto;
    intros [x E]; discriminate.
Qed.

Lemma nonEmptyText_iff (v : Json) :
  isValid (checked string [minLength 1] (Some v)) = true <-> Spec.isNonEmptyText v.
Proof.
  unfold Spec.isNonEmptyText, checked.
  destruct v; simpl; try (split; [discriminate | intros [x [E _]]; discriminate]).
  rewrite isValid_run. simpl. rewrite andb_true_r. unfold minLength.
  destruct s as [|c s]; simpl; split; try discriminate.
  - intros [x [E Hx]]. inversion E; subst. congruence.
  - intros _. exists (c :: s). split; [reflexivity | discriminate].
  - reflexivity.
Qed.

Lemma int_iff (q : Q) : int q = true <-> exists z : Z, q == inject_Z z.
Proof.
  unfold int. rewrite Qeq_bool_iff. split.
  - intros E. exists (Qfloor q). symmetry. exact E.
  - intros [z E]. rewrite E at 1. rewrite Qfloor_Z. symmetry. exact E.
Qed.

Lemma integerWithin_iff (v : Json) :
  isValid (checked number [int; min 0; max 100] (Some v)) = true
  <-> Spec.isIntegerWithin 0 100 v.
Proof.
  unfold Spec.isIntegerWithin, checked.
  destruct v; simpl;
    try (split; [discriminate | intros [x [E _]]; discriminate]).
  rewrite isValid_run. simpl. rewrite andb_true_r, !andb_true_iff.
  unfold min, max. rewrite int_iff, !Qle_bool_iff. split.
  - intros [Hi [Hlo Hhi]]. exists q. auto.
  - intros [x [E [Hi [Hlo Hhi]]]]. inversion E; subst. auto.
Qed.

Lemma nonNegative_iff (v : Json) :
  isValid (checked number [nonnegative] (Some v)) = true <-> Spec.isNonNegative v.
Proof.
  unfold Spec.isNonNegative, checked.
  destruct v; simpl;
    try (split; [discriminate | intros [x [E _]]; discriminate]).
  rewrite isValid_run. simpl. rewrite andb_true_r.
  unfold nonnegative. rewrite Qle_bool_iff. split.
  - intros H. exists q. auto.
  - intros [x [E H]]. inversion E; subst. exact H.
Qed.

Lemma forallb_Forall_iff (f : Json -> bool) (P : Json -> Prop) (l : list Json) :
  (forall x, f x = true <-> P x) -> forallb f l = true <-> Forall P l.
Proof.
  intros H. rewrite forallb_forall, Forall_forall.
  split; intros Hl x Hx; apply H; auto.
Qed.

Lemma array_iff {A} (s : Schema A) (P : Json -> Prop) (checks : list (nat -> bool))
      (v : Json) :
  (forall x, isValid (s (Some x)) = true <-> P x) ->
  isValid (array s checks (Some v)) = true
  <-> Spec.isListOf P v
      /\ (forall l, v = JArr l -> forallb (fun c => c (List.length l)) checks = true).
Proof.
  intros Hs. unfold Spec.isListOf, array.
  destruct v; cbv beta iota; cbn [isValid];
    try (split; [discriminate | intros [[x [E _]] _]; discriminate]).
  rewrite !isValid_ap, isValid_run, isValid_items. cbn [isValid pure andb].
  rewrite andb_true_iff, (forallb_Forall_iff _ P items0 Hs). split.
  - intros [Hc Hl]. split; [eauto|]. intros l E. inversion E; subst. exact Hc.
  - intros [[l [E Hl]] Hc]. inversion E; subst. split; [apply Hc; reflexivity | exact Hl].
Qed.

Lemma listOf_iff {A} (s : Schema A) (P : Json -> Prop) (v : Json) :
  (forall x, isValid (s (Some x)) = true <-> P x) ->
  isValid (array s [] (Some v)) = true <-> Spec.isListOf P v.
Proof.
  intros Hs. rewrite (array_iff s P [] v Hs). split; [tauto|].
  intros H. split; [exact H | reflexivity].
Qed.

Lemma forecastList_iff {A} (s : Schema A) (P : Json -> Prop) (v : Json) :
  (forall x, isValid (s (Some x)) = true <-> P x) ->
  isValid (array s [minItems 1; maxItems 7] (Some v)) = true
  <-> Spec.isListOf P v /\ Spec.hasLengthWithin 1 7 v.
Proof.
  intros Hs. rewrite (array_iff s P _ v Hs). unfold Spec.hasLengthWithin.
  split.
  - intros [[l [E Hl]] Hc]. specialize (Hc l E).
    cbn [forallb] in Hc. unfold minItems, maxItems in Hc.
    rewrite andb_true_r, andb_true_iff, !Nat.leb_le in Hc.
    split; exists l; auto.
  - intros [Hl [l [E Hlen]]]. split; [exact Hl|]. intros l' E'.
    rewrite E in E'. inversion E'; subst. cbn [forallb]. unfold minItems, maxItems.
    rewrite andb_true_r, andb_true_iff, !Nat.leb_le. exact Hlen.
Qed.

Lemma WeatherInfo_iff (v : Json) :
  isValid (WeatherInfo.schema (Some v)) = true <-> Spec.WeatherInfo v.
Proof.
  unfold Spec.WeatherInfo, WeatherInfo.schema.
  destruct v; cbv beta iota; cbn [isValid];
    try (split; [discriminate | intros [x [E _]]; discriminate]).
  rewrite !isValid_ap, !andb_true_iff. cbn [isValid pure].
  rewrite (required_iff (checked string [minLength 1]) _ fields0 "location" eq_refl
             nonEmptyText_iff).
  rewrite (optional_iff _ _ fields0 "current_temp" number_iff).
  rewrite (required_iff string _ fields0 "condition" eq_refl string_iff).
  rewrite (optional_iff _ _ fields0 "humidity" integerWithin_iff).
  rewrite (optional_iff _ _ fields0 "wind_speed" nonNegative_iff).
  rewrite (optional_iff _ _ fields0 "recommendations"
             (fun x => listOf_iff string Spec.isText x string_iff)).
  split.
  - intros [[[[[[_ H1] H2] H3] H4] H5] H6]. exists fields0. tauto.
  - intros [o [E H]]. inversion E; subst. tauto.
Qed.

Lemma ForecastDay_iff (v : Json) :
  isValid (WeatherForecast.schema (Some v)) = true <-> Spec.ForecastDay v.
Proof.
  unfold Spec.ForecastDay, WeatherForecast.schema.
  destruct v; cbv beta iota; cbn [isValid];
    try (split; [discriminate | intros [x [E _]]; discriminate]).
  rewrite !isValid_ap, !andb_true_iff. cbn [isValid pure].
  rewrite (required_iff string _ fields0 "date" eq_refl string_iff).
  rewrite (required_iff number _ fields0 "high_temp" eq_refl number_iff).
  rewrite (required_iff number _ fields0 "low_temp" eq_refl number_iff).
  rewrite (required_iff string _ fields0 "condition" eq_refl string_iff).
  split.
  - intros [[[[_ H1] H2] H3] H4]. exists fields0. tauto.
  - intros [o [E H]]. inversion E; subst. tauto.
Qed.

Lemma Output_iff (v : Json) :
  isValid (Output.schema (Some v)) = true <-> Spec.WeatherReport v.
Proof.
  unfold Spec.WeatherReport, Output.schema.
  destruct v; cbv beta iota; cbn [isValid];
    try (split; [discriminate | intros [x [E _]]; discriminate]).
  rewrite !isValid_ap, !andb_true_iff. cbn [isValid pure].
  rewrite (required_iff WeatherInfo.schema _ fields0 "current_weather" eq_refl
             WeatherInfo_iff).
  rewrite (optional_iff _ _ fields0 "forecast"
             (fun x => forecastList_iff _ _ x ForecastDay_iff)).
  rewrite (optional_iff _ _ fields0 "clothing_suggestions"
             (fun x => listOf_iff string Spec.isText x string_iff)).
  rewrite (optional_iff _ _ fields0 "activity_recommendations"
             (fun x => listOf_iff string Spec.isText x string_iff)).
  split.
  - intros [[[[_ H1] H2] H3] H4]. exists fields0. tauto.
  - intros [o [E H]]. inversion E; subst. tauto.
Qed.

End Acceptance.

(* ================================================================== *)
(** * The summary message and its pieces                                *)
(* ================================================================== *)

Lemma appendEach_concat {A} (f : A -> jsstr) (l : list A) (message : jsstr) :
  appendEach f l message = message ++ List.concat (List.map f l).
Proof.
  unfold appendEach. revert message.
  induction l as [|x l IH]; intros message; simpl.
  - rewrite app_nil_r. reflexivity.
  - rewrite IH, <- app_assoc. reflexivity.
Qed.

Lemma if_append (c : bool) (message piece : jsstr) :
  (if c then message ++ piece else message) = message ++ (if c then piece else []).
Proof. destruct c; [reflexivity | rewrite app_nil_r; reflexivity]. Qed.

Lemma if_appendEach {A} (c : bool) (f : A -> jsstr) (l : list A) (message title : jsstr) :
  (if c then appendEach f l (message ++ title) else message)
  = message ++ (if c then title ++ List.concat (List.map f l) else []).
Proof.
  destruct c; [|rewrite app_nil_r; reflexivity].
  rewrite appendEach_concat, <- app_assoc. reflexivity.
Qed.

Lemma number_piece (rt : Runtime) (render : Runtime -> Line -> jsstr)
      (mk : Q -> Line) (before after : jsstr) (o : option Q) :
  (forall q, render rt (mk q) = before ++ numToString rt q ++ after) ->
  (if optTruthy o then before ++ showOpt rt o ++ after else [])
  = List.concat (List.map (render rt)
              match o with
              | Some q => if numTruthy q then [mk q] else []
              | None => []
              end).
Proof.
  intros Hr. destruct o as [q|]; simpl; [|reflexivity].
  destruct (numTruthy q); simpl; [|reflexivity].
  rewrite Hr, app_nil_r. reflexivity.
Qed.

Lemma list_piece {A} (rt : Runtime) (render : Runtime -> Line -> jsstr)
      (title : Line) (mk : A -> Line) (f : A -> jsstr) (c : bool) (l : list A) :
  (forall x, render rt (mk x) = f x) ->
  (if c then render rt title ++ List.concat (List.map f l) else [])
  = List.concat (List.map (render rt) (if c then title :: List.map mk l else [])).
Proof.
  intros Hr. destruct c; [|reflexivity].
  cbn [List.map List.concat]. f_equal. rewrite map_map.
  f_equal. apply map_ext. intros x. symmetry. apply Hr.
Qed.

Lemma formatWeatherMessage_lines (rt : Runtime) (weatherData : Output.t) :
  Bot.formatWeatherMessage rt weatherData
  = List.concat (List.map (Bot.renderLine rt) (Bot.messageLines weatherData)).
Proof.
  unfold Bot.formatWeatherMessage, Bot.messageLines, summaryLines. cbv zeta.
  rewrite !if_appendEach, !if_append.
  rewrite !map_app, !concat_app.
  rewrite <- (number_piece rt Bot.renderLine TemperatureLine
                (js "Temperature: ") (js "°C\n")) by reflexivity.
  rewrite <- (number_piece rt Bot.renderLine HumidityLine
                (js "💧 Humidity: ") (js "%\n")) by reflexivity.
  rewrite <- (number_piece rt Bot.renderLine WindLine
                (js "💨 Wind Speed: ") (js " km/h\n")) by reflexivity.
  rewrite <- (list_piece rt Bot.renderLine ForecastTitle DayLine (Bot.dayLine rt))
    by reflexivity.
  rewrite <- (list_piece rt Bot.renderLine ClothingTitle ClothingItem Bot.bullet)
    by reflexivity.
  rewrite <- (list_piece rt Bot.renderLine ActivityTitle ActivityItem Bot.bullet)
    by reflexivity.
  rewrite <- (list_piece rt Bot.renderLine TipsTitle TipItem Bot.bullet)
    by reflexivity.
  cbn [List.map List.concat Bot.renderLine].
  rewrite !app_nil_r, <- !app_assoc. reflexivity.
Qed.

Lemma bulletList_bullets (l : list jsstr) :
  l <> [] -> Serverless.bulletList l ++ js "\n" = List.concat (List.map Bot.bullet l).
Proof.
  unfold Serverless.bulletList.
  induction l as [|x [|y r] IH]; intros Hne; [congruence| |].
  - cbn [List.map join List.concat]. unfold Bot.bullet.
    rewrite app_nil_r, <- !app_assoc. reflexivity.
  - change (List.map (fun i => js "• " ++ i) (x :: y :: r))
      with ((js "• " ++ x) :: List.map (fun i => js "• " ++ i) (y :: r)).
    change (join (js "\n") ((js "• " ++ x) :: List.map (fun i => js "• " ++ i) (y :: r)))
      with ((js "• " ++ x) ++ js "\n"
            ++ join (js "\n") (List.map (fun i => js "• " ++ i) (y :: r))).
    rewrite <- !app_assoc. rewrite IH by discriminate.
    change (List.map Bot.bullet (x :: y :: r))
      with (Bot.bullet x :: List.map Bot.bullet (y :: r)).
    cbn [List.concat]. unfold Bot.bullet at 2. rewrite <- !app_assoc. reflexivity.
Qed.

Lemma bulletList_piece (rt : Runtime) (title : Line) (mk : jsstr -> Line)
      (o : option (list jsstr)) :
  (forall x, Serverless.renderLine rt (mk x) = Bot.bullet x) ->
  (if hasItems o
   then Serverless.renderLine rt title ++ Serverless.bulletList (itemsOf o) ++ js "\n"
   else [])
  = List.concat (List.map (Serverless.renderLine rt)
                   (if hasItems o then title :: List.map mk (itemsOf o) else [])).
Proof.
  intros Hr. destruct o as [[|x l]|]; try reflexivity.
  cbn [hasItems itemsOf]. rewrite bulletList_bullets by discriminate.
  cbn [List.map List.concat]. rewrite Hr, map_map.
  rewrite (map_ext (fun y => Serverless.renderLine rt (mk y)) Bot.bullet Hr).
  reflexivity.
Qed.

Lemma serverless_formatWeatherMessage_lines (rt : Runtime) (weatherData : Output.t) :
  Serverless.formatWeatherMessage rt weatherData
  = List.concat (List.map (Serverless.renderLine rt)
                   (Serverless.messageLines weatherData)).
Proof.
  unfold Serverless.formatWeatherMessage, Serverless.messageLines, summaryLines.
  cbv zeta. rewrite !map_app, !concat_app.
  rewrite <- (bulletList_piece rt ClothingTitle ClothingItem) by reflexivity.
  rewrite <- (bulletList_piece rt ActivityTitle ActivityItem) by reflexivity.
  rewrite <- (bulletList_piece rt TipsTitle TipItem) by reflexivity.
  rewrite !if_appendEach, !if_append.
  rewrite <- (number_piece rt Serverless.renderLine TemperatureLine
                (js "🌡️ Temp: ") (js "°C\n")) by reflexivity.
  rewrite <- (number_piece rt Serverless.renderLine HumidityLine
                (js "💧 Humidity: ") (js "%\n")) by reflexivity.
  rewrite <- (number_piece rt Serverless.renderLine WindLine
                (js "💨 Wind: ") (js " km/h\n")) by reflexivity.
  rewrite <- (list_piece rt Serverless.renderLine ForecastTitle DayLine (Bot.dayLine rt))
    by reflexivity.
  cbn [List.map List.concat Serverless.renderLine].
  rewrite !app_nil_r, <- !app_assoc, app_nil_l. reflexivity.
Qed.

Lemma concat_contains {A} (f : A -> jsstr) (x : A) (l : list A) :
  In x l -> contains (List.concat (List.map f l)) (f x).
Proof.
  intros Hin. apply in_split in Hin as [l1 [l2 ->]].
  exists (List.concat (List.map f l1)), (List.concat (List.map f l2)).
  rewrite map_app, concat_app. reflexivity.
Qed.

(** ** The pieces of one kind *)

Lemma filter_map_none {A} (p : Line -> bool) (mk : A -> Line) (l : list A) :
  (forall x, p (mk x) = false) -> filter p (List.map mk l) = [].
Proof.
  intros H. induction l as [|x l IH]; simpl; [reflexivity|].
  rewrite H. exact IH.
Qed.

Lemma filter_map_all {A} (p : Line -> bool) (mk : A -> Line) (l : list A) :
  (forall x, p (mk x) = true) -> filter p (List.map mk l) = List.map mk l.
Proof.
  intros H. induction l as [|x l IH]; simpl; [reflexivity|].
  rewrite H, IH. reflexivity.
Qed.

Lemma filter_section_none {A} (p : Line -> bool) (c : bool) (title : Line)
      (mk : A -> Line) (l : list A) :
  p title = false -> (forall x, p (mk x) = false) ->
  filter p (if c then title :: List.map mk l else []) = [].
Proof.
  intros Ht Hm. destruct c; [|reflexivity]. simpl. rewrite Ht.
  apply filter_map_none. exact Hm.
Qed.

Ltac other_sections :=
  repeat rewrite filter_section_none by (reflexivity || (intros; reflexivity)).

(** The temperature, humidity and wind pieces are there exactly for a
    number that is present and not zero. *)
Lemma number_lines (withTitle : bool) (w : Output.t) :
  filter isTemperatureLine (summaryLines withTitle w)
  = match WeatherInfo.current_temp (Output.current_weather w) with
    | Some t => if numTruthy t then [TemperatureLine t] else []
    | None => []
    end
  /\ filter isHumidityLine (summaryLines withTitle w)
    = match WeatherInfo.humidity (Output.current_weather w) with
      | Some h => if numTruthy h then [HumidityLine h] else []
      | None => []
      end
  /\ filter isWindLine (summaryLines withTitle w)
    = match WeatherInfo.wind_speed (Output.current_weather w) with
      | Some v => if numTruthy v then [WindLine v] else []
      | None => []
      end.
Proof.
  unfold summaryLines. rewrite !filter_app. other_sections.
  destruct withTitle;
    destruct (WeatherInfo.current_temp (Output.current_weather w)) as [t|];
    try destruct (numTruthy t);
    destruct (WeatherInfo.humidity (Output.current_weather w)) as [h|];
    try destruct (numTruthy h);
    destruct (WeatherInfo.wind_speed (Output.current_weather w)) as [v|];
    try destruct (numTruthy v); repeat split; reflexivity.
Qed.


(** C2 (the code departs from it).  On the valid report [zeroReport], whose
    current_temp, humidity and wind_speed are present and equal to zero, the
    message of either formatter holds the header and the condition line and
    no temperature, humidity or wind line: the three tests are truthiness
    tests, and zero is falsy. *)
Theorem zero_values_are_omitted (rt : Runtime) :
  validate zeroJson = Zod.Valid zeroReport
  /\ Bot.messageLines zeroReport
     = [Header (js "Oslo"); CurrentTitle; ConditionLine (js "Snow")]
  /\ Bot.formatWeatherMessage rt zeroReport
     = js "🌤️ **Weather for Oslo**\n\n🌡️ **Current Conditions:**\nCondition: Snow\n"
  /\ Serverless.messageLines zeroReport
     = [Header (js "Oslo"); ConditionLine (js "Snow")]
  /\ Serverless.formatWeatherMessage rt zeroReport
     = js "🌤️ *Weather for Oslo*\n\nCondition: Snow\n".
Proof. repeat split; vm_compute; reflexivity. Qed.

Lemma header_text (rt : Runtime) (location : jsstr) :
  Bot.renderLine rt (Header location) = js "🌤️ **Weather for " ++ location ++ js "**\n\n".
Proof. reflexivity. Qed.

Lemma condition_text (rt : Runtime) (condition : jsstr) :
  Bot.renderLine rt (ConditionLine condition) = js "Condition: " ++ condition ++ js "\n".
Proof. reflexivity. Qed.

Lemma serverless_header_text (rt : Runtime) (location : jsstr) :
  Serverless.renderLine rt (Header location)
  = js "🌤️ *Weather for " ++ location ++ js "*\n\n".
Proof. reflexivity. Qed.

Lemma serverless_condition_text (rt : Runtime) (condition : jsstr) :
  Serverless.renderLine rt (ConditionLine condition)
  = js "Condition: " ++ condition ++ js "\n".
Proof. reflexivity. Qed.

(** C3.  The message of either formatter contains, for every report, the
    header with the location and the condition line; and for the valid
    report [minimalReport], whose optional fields are all absent, these two
    are the only pieces that show a field of the report: the message is the
    header, the fixed title of the block in src/bot.js, and the condition
    line. *)
Theorem header_and_condition_only_guaranteed (rt : Runtime) :
  (forall w : Output.t,
      let location := WeatherInfo.location (Output.current_weather w) in
      let condition := WeatherInfo.condition (Output.current_weather w) in
      contains (Bot.formatWeatherMessage rt w)
               (js "🌤️ **Weather for " ++ location ++ js "**\n\n")
      /\ contains (Bot.formatWeatherMessage rt w)
                  (js "Condition: " ++ condition ++ js "\n")
      /\ contains (Serverless.formatWeatherMessage rt w)
                  (js "🌤️ *Weather for " ++ location ++ js "*\n\n")
      /\ contains (Serverless.formatWeatherMessage rt w)
                  (js "Condition: " ++ condition ++ js "\n"))
  /\ validate minimalJson = Zod.Valid minimalReport
  /\ filter showsField (Bot.messageLines minimalReport)
     = [Header (js "Oslo"); ConditionLine (js "Snow")]
  /\ Bot.formatWeatherMessage rt minimalReport
     = js "🌤️ **Weather for Oslo**\n\n🌡️ **Current Conditions:**\nCondition: Snow\n"
  /\ Serverless.messageLines minimalReport
     = [Header (js "Oslo"); ConditionLine (js "Snow")]
  /\ Serverless.formatWeatherMessage rt minimalReport
     = js "🌤️ *Weather for Oslo*\n\nCondition: Snow\n".
Proof.
  split; [|repeat split; vm_compute; reflexivity].
  intros w location condition.
  rewrite formatWeatherMessage_lines, serverless_formatWeatherMessage_lines.
  unfold Bot.messageLines, Serverless.messageLines.
  assert (Hh : forall b, In (Header location) (summaryLines b w)).
  { intros b. unfold summaryLines. apply in_or_app. left. left. reflexivity. }
  assert (Hc : forall b, In (ConditionLine condition) (summaryLines b w)).
  { intros b. unfold summaryLines. do 3 (apply in_or_app; right).
    apply in_or_app. left. left. reflexivity. }
  split; [|split; [|split]].
  - rewrite <- (header_text rt location). apply concat_contains, Hh.
  - rewrite <- (condition_text rt condition). apply concat_contains, Hc.
  - rewrite <- (serverless_header_text rt location). apply concat_contains, Hh.
  - rewrite <- (serverless_condition_text rt condition). apply concat_contains, Hc.
Qed.

(* ================================================================== *)
(** * The handlers                                                      *)
(* ================================================================== *)

Ltac run := cbn [bind emit ret throw tryCatch trace outcome fst snd app].

Lemma getWeatherInfo_eq (rt : Runtime) (location : jsstr) (preferences : option jsstr) :
  Bot.getWeatherInfo rt location preferences
  = ([GenerateObject
        (Bot.prompt location match preferences with Some p => p | None => js "" end)],
     fetchResult rt
        (Bot.prompt location match preferences with Some p => p | None => js "" end)).
Proof.
  unfold Bot.getWeatherInfo, generateObject, fetchResult, validate.
  destruct (reply rt _) as [j|]; [|reflexivity].
  destruct (Output.schema (Some j)); reflexivity.
Qed.

Lemma fetchFailed_result (rt : Runtime) (p : jsstr) :
  fetchFailed rt p <-> exists e, fetchResult rt p = inl e.
Proof.
  unfold fetchFailed, fetchResult. split.
  - intros [-> | [j [-> Hj]]]; [eauto|].
    destruct (validate j); [discriminate | eauto].
  - intros [e He]. destruct (reply rt p) as [j|]; [|auto].
    right. exists j. split; [reflexivity|].
    destruct (validate j); [discriminate | reflexivity].
Qed.

(** The four ways through the message handler. *)
Lemma onMessage_no_text (rt : Runtime) (chat : Z) :
  Bot.onMessage rt {| Bot.chat_id := chat; Bot.msg_text := None |}
  = ([SendMessage chat Bot.genericApology None], inr tt).
Proof. reflexivity. Qed.

Lemma onMessage_ignored (rt : Runtime) (chat : Z) (text : jsstr) :
  Bot.isWeatherRequest text = false ->
  Bot.onMessage rt {| Bot.chat_id := chat; Bot.msg_text := Some text |} = ([], inr tt).
Proof.
  intros H. unfold Bot.onMessage. cbn [Bot.msg_text Bot.chat_id]. rewrite H.
  reflexivity.
Qed.

Lemma onMessage_empty_location (rt : Runtime) (chat : Z) (text : jsstr) :
  Bot.isWeatherRequest text = true ->
  Bot.location (Bot.parseWeatherCommand text) = [] ->
  Bot.onMessage rt {| Bot.chat_id := chat; Bot.msg_text := Some text |}
  = ([SendChatAction chat (js "typing"); SendMessage chat Bot.usageHint None], inr tt).
Proof.
  intros H E. unfold Bot.onMessage. cbn [Bot.msg_text Bot.chat_id]. rewrite H, E.
  reflexivity.
Qed.

Lemma onMessage_fetch (rt : Runtime) (chat : Z) (text : jsstr) :
  Bot.isWeatherRequest text = true ->
  Bot.location (Bot.parseWeatherCommand text) <> [] ->
  Bot.onMessage rt {| Bot.chat_id := chat; Bot.msg_text := Some text |}
  = ([SendChatAction chat (js "typing");
      GenerateObject (Bot.prompt (Bot.location (Bot.parseWeatherCommand text))
                        (Bot.preferences (Bot.parseWeatherCommand text)));
      match fetchResult rt
              (Bot.prompt (Bot.location (Bot.parseWeatherCommand text))
                 (Bot.preferences (Bot.parseWeatherCommand text))) with
      | inr weatherData =>
        SendMessage chat (Bot.formatWeatherMessage rt weatherData)
          (Some {| parse_mode := js "Markdown"; disable_web_page_preview := true;
                   reply_markup :=
                     Some (Bot.buttons (Bot.location (Bot.parseWeatherCommand text))) |})
      | inl _ => SendMessage chat Bot.fetchApology None
      end],
     inr tt).
Proof.
  intros H E. unfold Bot.onMessage. cbn [Bot.msg_text Bot.chat_id]. rewrite H.
  destruct (Bot.location (Bot.parseWeatherCommand text)) as [|c l] eqn:El;
    [congruence|].
  cbn [truthy negb]. rewrite getWeatherInfo_eq.
  destruct (fetchResult rt _); reflexivity.
Qed.

(** C7.  A recognized weather message whose parsed location is empty gets
    the typing indicator and the usage hint, and nothing else happens: the
    model is not called.  The input ["/weather   "] is such a message. *)
Theorem empty_location_gets_usage_hint (rt : Runtime) (chat : Z) (text : jsstr) :
  Bot.isWeatherRequest text = true ->
  Bot.location (Bot.parseWeatherCommand text) = [] ->
  Bot.onMessage rt {| Bot.chat_id := chat; Bot.msg_text := Some text |}
  = ([SendChatAction chat (js "typing"); SendMessage chat Bot.usageHint None], inr tt)
  /\ modelCalls
       (trace (Bot.onMessage rt {| Bot.chat_id := chat; Bot.msg_text := Some text |}))
     = []
  /\ Bot.parseWeatherCommand (js "/weather   ")
     = {| Bot.location := js ""; Bot.preferences := js "" |}.
Proof.
  intros H E. rewrite (onMessage_empty_location rt chat text H E).
  split; [reflexivity|]. split; [reflexivity|]. vm_compute. reflexivity.
Qed.

Lemma empty_location_gets_usage_hint_witness :
  Bot.isWeatherRequest (js "/weather   ") = true
  /\ Bot.location (Bot.parseWeatherCommand (js "/weather   ")) = []
  /\ Bot.onMessage (sampleRuntime None)
       {| Bot.chat_id := 7; Bot.msg_text := Some (js "/weather   ") |}
     = ([SendChatAction 7 (js "typing"); SendMessage 7 Bot.usageHint None], inr tt).
Proof.
  assert (H : Bot.isWeatherRequest (js "/weather   ") = true)
    by (vm_compute; reflexivity).
  assert (E : Bot.location (Bot.parseWeatherCommand (js "/weather   ")) = [])
    by (vm_compute; reflexivity).
  split; [exact H|]. split; [exact E|].
  exact (proj1 (empty_location_gets_usage_hint (sampleRuntime None) 7 (js "/weather   ") H E)).
Defined.

(** The ways through the callback handler. *)
Lemma onCallback_no_data (rt : Runtime) (id : jsstr) (chat : Z) :
  Bot.onCallback rt {| Bot.id := id; Bot.cb_chat_id := chat; Bot.data := None |}
  = ([AnswerCallbackQuery id], inl TypeError).
Proof. reflexivity. Qed.

Lemma onCallback_failure (rt : Runtime) (id : jsstr) (chat : Z) (d : jsstr) (e : Exn) :
  fetchResult rt (Bot.prompt (snd (Bot.decodeCallback d)) (js "")) = inl e ->
  Bot.onCallback rt {| Bot.id := id; Bot.cb_chat_id := chat; Bot.data := Some d |}
  = ([AnswerCallbackQuery id;
      GenerateObject (Bot.prompt (snd (Bot.decodeCallback d)) (js ""));
      SendMessage chat Bot.buttonApology None],
     inr tt).
Proof.
  intros H. unfold Bot.onCallback. cbn [Bot.data Bot.id Bot.cb_chat_id].
  destruct (Bot.decodeCallback d) as [action location]. cbn [snd] in *.
  rewrite getWeatherInfo_eq, H. reflexivity.
Qed.

Lemma onCallback_shape (rt : Runtime) (id : jsstr) (chat : Z) (d : jsstr) :
  exists sends,
    Bot.onCallback rt {| Bot.id := id; Bot.cb_chat_id := chat; Bot.data := Some d |}
    = (AnswerCallbackQuery id
       :: GenerateObject (Bot.prompt (snd (Bot.decodeCallback d)) (js ""))
       :: sends,
       inr tt)
    /\ modelCalls sends = [].
Proof.
  destruct (fetchResult rt (Bot.prompt (snd (Bot.decodeCallback d)) (js "")))
    as [e|w] eqn:Hf.
  - rewrite (onCallback_failure rt id chat d e Hf). eexists. split; reflexivity.
  - unfold Bot.onCallback. cbn [Bot.data Bot.id Bot.cb_chat_id].
    destruct (Bot.decodeCallback d) as [action location]. cbn [snd] in *.
    rewrite getWeatherInfo_eq, Hf. run.
    repeat match goal with
           | |- context [if ?c then _ else _] => destruct c
           | |- context [match nth_error ?l ?n with _ => _ end] =>
             destruct (nth_error l n)
           end;
      run; eexists; split; reflexivity.
Qed.

Lemma modelCalls_In (p : jsstr) (t : list Event) :
  In (GenerateObject p) t -> In p (modelCalls t).
Proof.
  induction t as [|ev t IH]; [auto|].
  intros [E | Hin].
  - subst ev. left. reflexivity.
  - destruct ev; simpl; auto.
Qed.

(** C5.  When an update leads to a call of the model and that call fails
    (the service fails, or its answer does not pass the schema: the two are
    not told apart), the handler ends normally and has sent exactly one
    message, the apology of its path, to the chat of the update. *)
Theorem fetch_failure_sends_one_apology (rt : Runtime) (u : Update) (p : jsstr) :
  In (GenerateObject p) (trace (processUpdate rt u)) ->
  fetchFailed rt p ->
  outcome (processUpdate rt u) = inr tt
  /\ sentMessages (trace (processUpdate rt u)) = [(chatOf u, apologyOf u)].
Proof.
  intros Hin Hfail. apply fetchFailed_result in Hfail as [e He].
  destruct u as [m | q]; cbn [processUpdate chatOf apologyOf] in *;
    [destruct m as [chat [text|]] | destruct q as [id chat [d|]]];
    cbn [Bot.chat_id Bot.cb_chat_id] in *.
  - destruct (Bot.isWeatherRequest text) eqn:H.
    + destruct (Bot.location (Bot.parseWeatherCommand text)) as [|c l] eqn:E.
      * rewrite (onMessage_empty_location rt chat text H E) in Hin.
        destruct Hin as [Hin | [Hin | []]]; discriminate.
      * assert (Hne : Bot.location (Bot.parseWeatherCommand text) <> [])
          by (rewrite E; discriminate).
        rewrite (onMessage_fetch rt chat text H Hne) in *.
        destruct Hin as [Hin | [Hin | [Hin | []]]]; [discriminate| |].
        -- inversion Hin as [Hp]. rewrite Hp, He. split; reflexivity.
        -- destruct (fetchResult rt _); discriminate.
    + rewrite (onMessage_ignored rt chat text H) in Hin. destruct Hin.
  - rewrite onMessage_no_text in Hin. destruct Hin as [Hin | []]. discriminate.
  - destruct (onCallback_shape rt id chat d) as [sends [E Hs]].
    rewrite E in Hin. destruct Hin as [Hin | [Hin | Hin]]; [discriminate| |].
    + inversion Hin as [Hp]. rewrite <- Hp in He.
      rewrite (onCallback_failure rt id chat d e He). split; reflexivity.
    + apply modelCalls_In in Hin. rewrite Hs in Hin. destruct Hin.
  - rewrite onCallback_no_data in Hin. destruct Hin as [Hin | []]. discriminate.
Qed.

(** A message whose fetch fails at the service, and a button press whose
    answer is rejected by the schema. *)
Lemma fetch_failure_sends_one_apology_witness :
  (outcome (processUpdate (sampleRuntime None) sampleMessage) = inr tt
   /\ sentMessages (trace (processUpdate (sampleRuntime None) sampleMessage))
      = [(chatOf sampleMessage, apologyOf sampleMessage)])
  /\ (outcome (processUpdate (sampleRuntime (Some rejectedJson)) sampleCallback) = inr tt
      /\ sentMessages
           (trace (processUpdate (sampleRuntime (Some rejectedJson)) sampleCallback))
         = [(chatOf sampleCallback, apologyOf sampleCallback)]).
Proof.
  assert (Hm : In (GenerateObject (Bot.prompt (js "Paris") (js "")))
                  (trace (processUpdate (sampleRuntime None) sampleMessage)))
    by (vm_compute; right; left; reflexivity).
  assert (Hc : In (GenerateObject (Bot.prompt (js "Paris") (js "")))
                  (trace (processUpdate (sampleRuntime (Some rejectedJson))
                            sampleCallback)))
    by (vm_compute; right; left; reflexivity).
  assert (Fm : fetchFailed (sampleRuntime None) (Bot.prompt (js "Paris") (js "")))
    by (left; reflexivity).
  assert (Fc : fetchFailed (sampleRuntime (Some rejectedJson))
                 (Bot.prompt (js "Paris") (js ""))).
  { right. exists rejectedJson. split; [reflexivity | vm_compute; reflexivity]. }
  split.
  - exact (fetch_failure_sends_one_apology (sampleRuntime None) sampleMessage
             (Bot.prompt (js "Paris") (js "")) Hm Fm).
  - exact (fetch_failure_sends_one_apology (sampleRuntime (Some rejectedJson))
             sampleCallback (Bot.prompt (js "Paris") (js "")) Hc Fc).
Defined.

(** C9.  A button press calls the model once, with the prompt of the decoded
    location and of empty preferences; and whatever the text of the original
    command (so whatever its preferences), pressing any button of its reply
    calls the model with the prompt of the parsed location and of empty
    preferences. *)
Theorem callback_refetch_has_empty_preferences (rt : Runtime) (id : jsstr) (chat : Z) :
  (forall d,
      modelCalls (trace (Bot.onCallback rt
                           {| Bot.id := id; Bot.cb_chat_id := chat; Bot.data := Some d |}))
      = [Bot.prompt (snd (Bot.decodeCallback d)) (js "")])
  /\ (forall text,
        Forall (Forall (fun payload =>
                  modelCalls (trace (Bot.onCallback rt
                                       {| Bot.id := id; Bot.cb_chat_id := chat;
                                          Bot.data := Some payload |}))
                  = [Bot.prompt (Bot.location (Bot.parseWeatherCommand text)) (js "")]))
               (payloads (Bot.buttons (Bot.location (Bot.parseWeatherCommand text))))).
Proof.
  assert (H1 : forall d,
      modelCalls (trace (Bot.onCallback rt
                           {| Bot.id := id; Bot.cb_chat_id := chat; Bot.data := Some d |}))
      = [Bot.prompt (snd (Bot.decodeCallback d)) (js "")]).
  { intros d. destruct (onCallback_shape rt id chat d) as [sends [E Hs]].
    rewrite E. cbn [trace fst modelCalls]. rewrite Hs. reflexivity. }
  split; [exact H1|].
  intros text. rewrite buttons_payloads. unfold actions. cbn [List.map].
  repeat constructor; rewrite H1, bot_decode_encode by (vm_compute; reflexivity);
    reflexivity.
Qed.

(** ** The forecast views *)

Ltac eval_tests :=
  repeat match goal with
         | |- context [JS.eqb ?a ?b] =>
           let v := eval vm_compute in (JS.eqb a b) in
           change (JS.eqb a b) with v
         end.



Lemma contains_after (before message piece : jsstr) :
  contains message piece -> contains (before ++ message) piece.
Proof.
  intros [b [a ->]]. exists (before ++ b), a. rewrite <- app_assoc. reflexivity.
Qed.

Lemma contains_first (piece after : jsstr) : contains (piece ++ after) piece.
Proof. exists [], after. reflexivity. Qed.

Lemma summary_forecast_block (rt : Runtime) (w : Output.t) :
  hasItems (Output.forecast w) = true ->
  contains (Bot.formatWeatherMessage rt w)
    (List.concat (List.map (Bot.renderLine rt)
       (ForecastTitle :: List.map DayLine (firstn 3 (itemsOf (Output.forecast w)))))).
Proof.
  intros Hi. rewrite formatWeatherMessage_lines.
  unfold Bot.messageLines, summaryLines. rewrite Hi.
  rewrite !map_app, !concat_app.
  do 6 apply contains_after. apply contains_first.
Qed.





(* ================================================================== *)
(** * Messages that start with [/w ]                                    *)
(* ================================================================== *)

Lemma slash_w_text (rest : jsstr) : js "/w " ++ rest = 47%N :: 119%N :: 32%N :: rest.
Proof. vm_compute. reflexivity. Qed.

Lemma slash_w_prefix (tail : jsstr) : 47%N :: 119%N :: tail = js "/w" ++ tail.
Proof. vm_compute. reflexivity. Qed.

Lemma split2_fst_cons (d : CodeUnit -> bool) (c : CodeUnit) (s : jsstr) :
  d c = false -> fst (split2 d (c :: s)) = c :: fst (split2 d s).
Proof. intros H. simpl. destruct (split2 d s). rewrite H. reflexivity. Qed.

Lemma slash_w_location (rest : jsstr) :
  exists tail,
    Bot.location (Bot.parseWeatherCommand (js "/w " ++ rest)) = js "/w" ++ tail.
Proof.
  rewrite parseWeatherCommand_fields, slash_w_text. cbn [Bot.location].
  assert (E : Bot.replaceWeatherPrefix (47 :: 119 :: 32 :: rest)%N
              = (47 :: 119 :: 32 :: rest)%N).
  { unfold Bot.replaceWeatherPrefix.
    replace (startsWithCI (47 :: 119 :: 32 :: rest)%N (js "/weather")) with false
      by (vm_compute; reflexivity).
    reflexivity. }
  rewrite E. unfold fields. cbn [fst].
  rewrite !split2_fst_cons by reflexivity.
  unfold trim. cbn [trimStart]. 
  replace (isWhiteSpace 47) with false by reflexivity. cbv iota.
  rewrite !trimEnd_cons by reflexivity.
  eexists. apply slash_w_prefix.
Qed.

(** C10.  A message whose text starts with [/w ] is taken as a weather
    request, but the parser removes only [/weather]: the location it returns
    starts with the characters [/w] (["/w Paris"] gives the location
    ["/w Paris"]), and that location is the one put in the prompt of the
    fetch and in the payloads of the six buttons of the reply. *)
Theorem slash_w_stays_in_location (rt : Runtime) (chat : Z) (rest : jsstr) :
  Bot.isWeatherRequest (js "/w " ++ rest) = true
  /\ (exists tail,
        Bot.location (Bot.parseWeatherCommand (js "/w " ++ rest)) = js "/w" ++ tail)
  /\ Bot.parseWeatherCommand (js "/w Paris")
     = {| Bot.location := js "/w Paris"; Bot.preferences := js "" |}
  /\ (exists answer,
        Bot.onMessage rt {| Bot.chat_id := chat; Bot.msg_text := Some (js "/w " ++ rest) |}
        = ([SendChatAction chat (js "typing");
            GenerateObject
              (Bot.prompt (Bot.location (Bot.parseWeatherCommand (js "/w " ++ rest)))
                 (Bot.preferences (Bot.parseWeatherCommand (js "/w " ++ rest))));
            answer],
           inr tt)
        /\ forall w,
            fetchResult rt
              (Bot.prompt (Bot.location (Bot.parseWeatherCommand (js "/w " ++ rest)))
                 (Bot.preferences (Bot.parseWeatherCommand (js "/w " ++ rest))))
            = inr w ->
            answer
            = SendMessage chat (Bot.formatWeatherMessage rt w)
                (Some {| parse_mode := js "Markdown"; disable_web_page_preview := true;
                         reply_markup :=
                           Some (Bot.buttons
                                   (Bot.location
                                      (Bot.parseWeatherCommand (js "/w " ++ rest)))) |}))
  /\ payloads (Bot.buttons (Bot.location (Bot.parseWeatherCommand (js "/w " ++ rest))))
     = List.map
         (fun action =>
            [encodeCallback action
               (Bot.location (Bot.parseWeatherCommand (js "/w " ++ rest)))])
         actions.
Proof.
  assert (Hrec : Bot.isWeatherRequest (js "/w " ++ rest) = true).
  { unfold Bot.isWeatherRequest. rewrite slash_w_text.
    rewrite !orb_true_iff. right. vm_compute. reflexivity. }
  destruct (slash_w_location rest) as [tail Htail].
  assert (Hne : Bot.location (Bot.parseWeatherCommand (js "/w " ++ rest)) <> []).
  { rewrite Htail, <- slash_w_prefix. discriminate. }
  split; [exact Hrec|]. split; [exists tail; exact Htail|].
  split; [vm_compute; reflexivity|].
  split; [|apply buttons_payloads].
  eexists. split; [apply (onMessage_fetch rt chat _ Hrec Hne)|].
  intros w Hw. cbv beta. rewrite Hw. reflexivity.
Qed.

(* ================================================================== *)
(** * Validation                                                        *)
(* ================================================================== *)

Lemma humidity_150_rejected (o cw : list (jsstr * Json)) :
  getField (js "current_weather") o = Some (JObj cw) ->
  getField (js "humidity") cw = Some (JNum 150) ->
  Zod.isValid (validate (JObj o)) = false.
Proof.
  intros Hcw Hh. unfold validate.
  destruct (Zod.isValid (Output.schema (Some (JObj o)))) eqn:E; [|reflexivity].
  apply Output_iff in E. destruct E as [o' [Eo [[v [Hv Hinfo]] _]]].
  inversion Eo; subst o'. rewrite Hcw in Hv. inversion Hv; subst v.
  destruct Hinfo as [cw' [Ecw [_ [_ [_ [Hhum _]]]]]].
  inversion Ecw; subst cw'. destruct (Hhum _ Hh) as [q [Eq [_ [_ Hle]]]].
  inversion Eq; subst q. exfalso. revert Hle. unfold Qle. simpl. lia.
Qed.

Lemma empty_forecast_rejected (o : list (jsstr * Json)) :
  getField (js "forecast") o = Some (JArr []) ->
  Zod.isValid (validate (JObj o)) = false.
Proof.
  intros Hf. unfold validate.
  destruct (Zod.isValid (Output.schema (Some (JObj o)))) eqn:E; [|reflexivity].
  apply Output_iff in E. destruct E as [o' [Eo [_ [Hfc _]]]].
  inversion Eo; subst o'. destruct (Hfc _ Hf) as [_ [l [El Hlen]]].
  inversion El; subst l. simpl in Hlen. lia.
Qed.

(** C6.  The schema accepts a candidate exactly when it is a WeatherReport
    in the sense of the data model: an object whose current_weather is an
    object with a non-empty text location, a text condition and, when
    present, a number current_temp, an integer humidity in [0,100], a
    wind_speed that is at least 0 and a list of texts as recommendations;
    whose forecast, when present, is a list of 1 to 7 objects with the four
    required fields; and whose two lists of suggestions, when present, are
    lists of texts.  An object whose humidity is 150, or whose forecast is
    empty, is rejected; the object with both has the two issues. *)
Theorem schema_accepts_exactly_weather_reports :
  (forall candidate,
      Zod.isValid (validate candidate) = true <-> Spec.WeatherReport candidate)
  /\ (forall o cw,
        getField (js "current_weather") o = Some (JObj cw) ->
        getField (js "humidity") cw = Some (JNum 150) ->
        Zod.isValid (validate (JObj o)) = false)
  /\ (forall o,
        getField (js "forecast") o = Some (JArr []) ->
        Zod.isValid (validate (JObj o)) = false)
  /\ validate rejectedJson
     = Zod.Invalid [[Zod.Key (js "current_weather"); Zod.Key (js "humidity")];
                    [Zod.Key (js "forecast")]].
Proof.
  split; [exact Output_iff|]. split; [exact humidity_150_rejected|].
  split; [exact empty_forecast_rejected|]. vm_compute. reflexivity.
Qed.

Lemma schema_accepts_exactly_weather_reports_witness :
  Zod.isValid (validate rejectedJson) = false
  /\ Zod.isValid (validate minimalJson) = true
  /\ Spec.WeatherReport minimalJson.
Proof.
  destruct schema_accepts_exactly_weather_reports as [Hiff [Hh _]].
  assert (Hv : Zod.isValid (validate minimalJson) = true) by (vm_compute; reflexivity).
  split; [|split; [exact Hv | exact (proj1 (Hiff minimalJson) Hv)]].
  apply (Hh _ [(js "location", JStr (js "Oslo")); (js "condition", JStr (js "Snow"));
               (js "humidity", JNum 150)]); vm_compute; reflexivity.
Defined.

(* ================================================================== *)
(** * Further properties: the parser and the recognizer                 *)
(* ================================================================== *)

Lemma forallb_trim (P : CodeUnit -> bool) (s : jsstr) :
  forallb P s = true -> forallb P (trim s) = true.
Proof.
  intros H. destruct (trim_split s) as [w1 [w2 [_ [_ E]]]].
  rewrite E, !forallb_app, !andb_true_iff in H. tauto.
Qed.

Lemma trim_idempotent (s : jsstr) : trim (trim s) = trim s.
Proof.
  destruct (trim_split s) as [w1 [w2 [H1 [H2 E]]]].
  rewrite E at 2. rewrite trim_ws_app, trim_app_ws by assumption. reflexivity.
Qed.

Lemma split2_noDelimiter (s : jsstr) :
  noDelimiter (fst (split2 Bot.isDelimiter s)) = true
  /\ forallb noDelimiter (snd (split2 Bot.isDelimiter s)) = true.
Proof.
  induction s as [|c s [IH1 IH2]]; [split; reflexivity|].
  simpl. destruct (split2 Bot.isDelimiter s) as [h t]. simpl in *.
  destruct (Bot.isDelimiter c) eqn:E; simpl.
  - rewrite IH1, IH2. split; reflexivity.
  - unfold noDelimiter in *. simpl. rewrite E, IH1, IH2. split; reflexivity.
Qed.

Lemma join_noDelimiter (parts : list jsstr) :
  forallb noDelimiter parts = true -> noDelimiter (join (js " ") parts) = true.
Proof.
  induction parts as [|x [|y r] IH]; intros H; [reflexivity| |].
  - simpl in *. rewrite andb_true_r in H. exact H.
  - change (join (js " ") (x :: y :: r)) with (x ++ js " " ++ join (js " ") (y :: r)).
    change (forallb noDelimiter (x :: y :: r))
      with (noDelimiter x && forallb noDelimiter (y :: r)) in H.
    apply andb_true_iff in H as [Hx Hr].
    unfold noDelimiter in *. rewrite !forallb_app, Hx, (IH Hr). reflexivity.
Qed.

Lemma fields_clean (r : jsstr) :
  noDelimiter (fst (fields r)) = true
  /\ noDelimiter (snd (fields r)) = true
  /\ trim (fst (fields r)) = fst (fields r)
  /\ trim (snd (fields r)) = snd (fields r).
Proof.
  unfold fields. cbn [fst snd].
  destruct (split2_noDelimiter r) as [H1 H2].
  apply join_noDelimiter in H2. unfold noDelimiter in *.
  split; [exact (forallb_trim _ _ H1)|].
  split; [exact (forallb_trim _ _ H2)|].
  split; apply trim_idempotent.
Qed.

Lemma command_location (a b : jsstr) :
  Bot.location {| Bot.location := a; Bot.preferences := b |} = a.
Proof. reflexivity. Qed.

Lemma command_preferences (a b : jsstr) :
  Bot.preferences {| Bot.location := a; Bot.preferences := b |} = b.
Proof. reflexivity. Qed.

(** X1.  The location and the preferences that [parseWeatherCommand]
    returns hold no comma, semicolon or pipe, and neither starts nor ends
    with white space. *)
Theorem parseWeatherCommand_output_clean (text : jsstr) :
  noDelimiter (Bot.location (Bot.parseWeatherCommand text)) = true
  /\ noDelimiter (Bot.preferences (Bot.parseWeatherCommand text)) = true
  /\ trim (Bot.location (Bot.parseWeatherCommand text))
     = Bot.location (Bot.parseWeatherCommand text)
  /\ trim (Bot.preferences (Bot.parseWeatherCommand text))
     = Bot.preferences (Bot.parseWeatherCommand text).
Proof.
  rewrite parseWeatherCommand_fields, !command_location, !command_preferences.
  apply fields_clean.
Qed.

Lemma startsWith_includes (s p : jsstr) (c : CodeUnit) :
  startsWith s (c :: p) = true -> includes s p = true.
Proof.
  destruct s as [|y s]; simpl; [discriminate|].
  rewrite andb_true_iff. intros [_ H].
  apply orb_true_iff. right.
  destruct s; simpl in *; rewrite H; reflexivity.
Qed.

Lemma slash_weather : js "/weather" = 47%N :: js "weather".
Proof. vm_compute. reflexivity. Qed.

(** X2.  The first test of the message handler is covered by the second:
    a text is taken as a weather request exactly when, in lower case, it
    holds the word weather somewhere or starts with [/w ] and a space. *)
Theorem isWeatherRequest_two_tests (text : jsstr) :
  Bot.isWeatherRequest text
  = includes (toLowerCase text) (js "weather")
    || startsWith (toLowerCase text) (js "/w ").
Proof.
  unfold Bot.isWeatherRequest.
  destruct (startsWith (toLowerCase text) (js "/weather")) eqn:E; [|reflexivity].
  rewrite slash_weather in E. rewrite (startsWith_includes _ _ _ E). reflexivity.
Qed.

(* ================================================================== *)
(** * Further properties: payloads and prompts                          *)
(* ================================================================== *)

Lemma split2_underscore_some (d : jsstr) :
  noUnderscore d = false -> snd (split2 Bot.isUnderscore d) <> [].
Proof.
  induction d as [|c d IH]; [discriminate|].
  unfold noUnderscore in *. simpl.
  destruct (split2 Bot.isUnderscore d) as [h t].
  destruct (Bot.isUnderscore c); simpl; [discriminate|].
  intros H. apply IH. exact H.
Qed.

(** X3.  Decoding in src/bot.js is undone by encoding: the action never
    holds an underscore; a payload without any underscore is all action,
    with the empty location; and a payload with an underscore is
    [<action>_<location>] for the decoded action and location. *)
Theorem decodeCallback_inverse (d : jsstr) :
  noUnderscore (fst (Bot.decodeCallback d)) = true
  /\ (noUnderscore d = true -> Bot.decodeCallback d = (d, js ""))
  /\ (noUnderscore d = false ->
      encodeCallback (fst (Bot.decodeCallback d)) (snd (Bot.decodeCallback d)) = d).
Proof.
  unfold Bot.decodeCallback. split; [|split].
  - pose proof (split2_underscore_fst d) as H.
    destruct (split2 Bot.isUnderscore d). exact H.
  - intros H. rewrite (split2_underscore_none d H). reflexivity.
  - intros H. pose proof (split2_underscore_some d H) as Hne.
    pose proof (join_split_underscore d) as J. unfold split in J.
    destruct (split2 Bot.isUnderscore d) as [a t]. cbn [fst snd] in *.
    destruct t as [|x r]; [congruence|].
    unfold encodeCallback. exact J.
Qed.

Lemma decodeCallback_inverse_witness :
  Bot.decodeCallback (js "today") = (js "today", js "")
  /\ encodeCallback (fst (Bot.decodeCallback (js "3days_New_York City")))
                    (snd (Bot.decodeCallback (js "3days_New_York City")))
     = js "3days_New_York City".
Proof.
  assert (H1 : noUnderscore (js "today") = true) by (vm_compute; reflexivity).
  assert (H2 : noUnderscore (js "3days_New_York City") = false)
    by (vm_compute; reflexivity).
  split.
  - exact (proj1 (proj2 (decodeCallback_inverse (js "today"))) H1).
  - exact (proj2 (proj2 (decodeCallback_inverse (js "3days_New_York City"))) H2).
Defined.

Lemma line_feed : js "\n" = [10%N].
Proof. vm_compute. reflexivity. Qed.

Lemma first_line_feed (l1 l2 r1 r2 : jsstr) :
  noLineFeed l1 = true -> noLineFeed l2 = true ->
  l1 ++ 10%N :: r1 = l2 ++ 10%N :: r2 -> l1 = l2 /\ r1 = r2.
Proof.
  revert l2. induction l1 as [|c l1 IH]; intros [|c2 l2] H1 H2 E; simpl in *.
  - inversion E. auto.
  - inversion E; subst c2. rewrite N.eqb_refl in H2. discriminate.
  - inversion E; subst c. rewrite N.eqb_refl in H1. discriminate.
  - apply andb_true_iff in H1 as [_ H1]. apply andb_true_iff in H2 as [_ H2].
    inversion E; subst c2. destruct (IH l2 H1 H2 H3) as [-> ->]. auto.
Qed.

Lemma cons_injective (c : CodeUnit) (x y : jsstr) : c :: x = c :: y -> x = y.
Proof. intros E. inversion E. reflexivity. Qed.

(** A prompt is evaluated down to its code units and the two sides are
    compared unit by unit, up to the first line feed after each field. *)
Ltac peel E := repeat apply cons_injective in E.

Ltac same_fields E :=
  vm_compute in E; peel E;
  apply first_line_feed in E; [|assumption|assumption];
  let El := fresh "El" in
  destruct E as [El E]; split; [exact El|];
  peel E; apply first_line_feed in E; [|assumption|assumption];
  exact (proj1 E).

Lemma bot_prompt_injective (l1 p1 l2 p2 : jsstr) :
  noLineFeed l1 = true -> noLineFeed p1 = true ->
  noLineFeed l2 = true -> noLineFeed p2 = true ->
  Bot.prompt l1 p1 = Bot.prompt l2 p2 -> l1 = l2 /\ p1 = p2.
Proof. intros Hl1 Hp1 Hl2 Hp2 E. same_fields E. Qed.

Lemma api_prompt_injective (l1 p1 l2 p2 : jsstr) :
  noLineFeed l1 = true -> noLineFeed p1 = true ->
  noLineFeed l2 = true -> noLineFeed p2 = true ->
  ApiHandlers.prompt l1 p1 = ApiHandlers.prompt l2 p2 -> l1 = l2 /\ p1 = p2.
Proof. intros Hl1 Hp1 Hl2 Hp2 E. same_fields E. Qed.

Lemma serverless_prompt_injective (l1 p1 l2 p2 : jsstr) :
  noLineFeed l1 = true -> noLineFeed p1 = true ->
  noLineFeed l2 = true -> noLineFeed p2 = true ->
  ServerlessHandlers.prompt l1 p1 = ServerlessHandlers.prompt l2 p2 ->
  l1 = l2 /\ p1 = p2.
Proof. intros Hl1 Hp1 Hl2 Hp2 E. same_fields E. Qed.

(** X4.  Two requests whose locations and preferences hold no line feed
    get the same prompt only when they are the same request, in each of the
    three handler files. *)
Theorem prompt_injective (l1 p1 l2 p2 : jsstr) :
  noLineFeed l1 = true -> noLineFeed p1 = true ->
  noLineFeed l2 = true -> noLineFeed p2 = true ->
  (Bot.prompt l1 p1 = Bot.prompt l2 p2 -> l1 = l2 /\ p1 = p2)
  /\ (ApiHandlers.prompt l1 p1 = ApiHandlers.prompt l2 p2 -> l1 = l2 /\ p1 = p2)
  /\ (ServerlessHandlers.prompt l1 p1 = ServerlessHandlers.prompt l2 p2 ->
      l1 = l2 /\ p1 = p2).
Proof.
  intros Hl1 Hp1 Hl2 Hp2.
  split; [exact (bot_prompt_injective l1 p1 l2 p2 Hl1 Hp1 Hl2 Hp2)|].
  split; [exact (api_prompt_injective l1 p1 l2 p2 Hl1 Hp1 Hl2 Hp2)|].
  exact (serverless_prompt_injective l1 p1 l2 p2 Hl1 Hp1 Hl2 Hp2).
Qed.

(** Without the condition the prompts can coincide: a line feed in the
    first request moves the boundary between the two fields. *)
Lemma prompt_injective_witness :
  (Bot.prompt (js "Oslo") (js "skiing") = Bot.prompt (js "Oslo") (js "skiing") ->
   js "Oslo" = js "Oslo" /\ js "skiing" = js "skiing")
  /\ Bot.prompt (js "A") (js "B\nPreferences: C")
     = Bot.prompt (js "A\nPreferences: B") (js "C").
Proof.
  split; [|vm_compute; reflexivity].
  refine (proj1 (prompt_injective (js "Oslo") (js "skiing") (js "Oslo") (js "skiing")
                   _ _ _ _)); vm_compute; reflexivity.
Defined.

(* ================================================================== *)
(** * Further properties: the schema                                    *)
(* ================================================================== *)

Section Parsing.

Import Zod.

Lemma ap_valid {A B} (pf : Parsed (A -> B)) (pa : Parsed A) (b : B) :
  ap pf pa = Valid b -> exists f a, pf = Valid f /\ pa = Valid a /\ b = f a.
Proof.
  destruct pf as [f|], pa as [a|]; simpl; try discriminate.
  intros E. inversion E. eauto.
Qed.

Lemma under_valid {A} (seg : PathSeg) (p : Parsed A) (a : A) :
  under seg p = Valid a -> p = Valid a.
Proof. destruct p; simpl; [auto | discriminate]. Qed.

Lemma run_valid {A} (checks : list (A -> bool)) (a b : A) :
  run checks a = Valid b -> b = a /\ forallb (fun c => c a) checks = true.
Proof.
  intros E. split.
  - unfold run in E. destruct (filter _ checks); [|discriminate].
    inversion E. reflexivity.
  - rewrite <- isValid_run, E. reflexivity.
Qed.

Lemma checked_valid {A} (s : Schema A) (checks : list (A -> bool)) v (a : A) :
  checked s checks v = Valid a -> forallb (fun c => c a) checks = true.
Proof.
  unfold checked. destruct (s v) as [x|]; [|discriminate].
  intros E. destruct (run_valid _ _ _ E) as [-> H]. exact H.
Qed.

Lemma optional_valid {A} (s : Schema A) v (a : A) :
  optional s v = Valid (Some a) -> s v = Valid a.
Proof.
  unfold optional. destruct v; [|discriminate].
  destruct (s (Some j)); simpl; [|discriminate].
  intros E. inversion E. reflexivity.
Qed.

Lemma items_length {A} (s : Schema A) (i : nat) (l : list Json) (xs : list A) :
  items s i l = Valid xs -> List.length xs = List.length l.
Proof.
  revert i xs. induction l as [|x l IH]; intros i xs E.
  - inversion E. reflexivity.
  - cbn [items] in E.
    apply ap_valid in E as [f [tl [Ef [Etl ->]]]].
    apply ap_valid in Ef as [g [hd [Eg [_ ->]]]].
    inversion Eg; subst g. simpl. rewrite (IH _ _ Etl). reflexivity.
Qed.

Lemma array_valid {A} (s : Schema A) (checks : list (nat -> bool)) v (xs : list A) :
  array s checks v = Valid xs ->
  forallb (fun c => c (List.length xs)) checks = true.
Proof.
  unfold array. destruct v as [[| | | |l|]|]; try discriminate.
  intros E. apply ap_valid in E as [f [ys [Ef [Ey ->]]]].
  apply ap_valid in Ef as [g [n [Eg [En ->]]]].
  inversion Eg; subst g. cbv beta.
  destruct (run_valid _ _ _ En) as [_ H].
  rewrite (items_length _ _ _ _ Ey). exact H.
Qed.

Lemma field_valid {A} (k : jsstr) (s : Schema A) o (a : A) :
  field k s o = Valid a -> s (getField k o) = Valid a.
Proof. apply under_valid. Qed.

Ltac split_ap E :=
  repeat match type of E with
         | ap _ _ = Valid _ =>
           let f := fresh "f" in
           let a := fresh "a" in
           let Ea := fresh "Ea" in
           apply ap_valid in E as [f [a [E [Ea ->]]]]
         end.

Ltac parts E :=
  split_ap E; inversion E; subst;
  cbn [Output.current_weather Output.forecast WeatherInfo.location
       WeatherInfo.humidity WeatherInfo.wind_speed];
  repeat split; assumption.

Lemma Output_valid (o : list (jsstr * Json)) (w : Output.t) :
  Output.schema (Some (JObj o)) = Valid w ->
  field (js "current_weather") WeatherInfo.schema o = Valid (Output.current_weather w)
  /\ field (js "forecast")
       (optional (array WeatherForecast.schema [minItems 1; maxItems 7])) o
     = Valid (Output.forecast w).
Proof. unfold Output.schema. intros E. parts E. Qed.

Lemma WeatherInfo_valid (o : list (jsstr * Json)) (cw : WeatherInfo.t) :
  WeatherInfo.schema (Some (JObj o)) = Valid cw ->
  field (js "location") (checked string [minLength 1]) o
  = Valid (WeatherInfo.location cw)
  /\ field (js "humidity") (optional (checked number [int; min 0; max 100])) o
     = Valid (WeatherInfo.humidity cw)
  /\ field (js "wind_speed") (optional (checked number [nonnegative])) o
     = Valid (WeatherInfo.wind_speed cw).
Proof. unfold WeatherInfo.schema. intros E. parts E. Qed.

Lemma valid_report_wellformed (candidate : Json) (w : Output.t) :
  validate candidate = Valid w -> WellFormed w.
Proof.
  unfold validate. intros E.
  destruct candidate as [| | | | |o]; try discriminate.
  destruct (Output_valid o w E) as [Hcw Hfc].
  apply field_valid in Hcw.
  destruct (getField (js "current_weather") o) as [[| | | | |cw]|];
    try discriminate.
  destruct (WeatherInfo_valid cw _ Hcw) as [Hloc [Hhum Hwind]].
  unfold WellFormed. split; [|split; [|split]].
  - apply field_valid, checked_valid in Hloc. cbn [forallb] in Hloc.
    unfold minLength in Hloc.
    destruct (WeatherInfo.location (Output.current_weather w)); discriminate.
  - intros h Eh. rewrite Eh in Hhum.
    apply field_valid, optional_valid, checked_valid in Hhum.
    cbn [forallb] in Hhum. rewrite !andb_true_iff in Hhum.
    destruct Hhum as [Hi [Hlo [Hhi _]]].
    apply int_iff in Hi. apply Qle_bool_iff in Hlo. apply Qle_bool_iff in Hhi.
    auto.
  - intros v Ev. rewrite Ev in Hwind.
    apply field_valid, optional_valid, checked_valid in Hwind.
    cbn [forallb] in Hwind. rewrite andb_true_r in Hwind.
    apply Qle_bool_iff in Hwind. exact Hwind.
  - intros days Ed. rewrite Ed in Hfc.
    apply field_valid, optional_valid, array_valid in Hfc.
    cbn [forallb] in Hfc. unfold minItems, maxItems in Hfc.
    rewrite andb_true_r, andb_true_iff, !Nat.leb_le in Hfc. exact Hfc.
Qed.

(** X5.  A report that passed the schema has a non-empty location, a
    humidity, when present, that is an integer between 0 and 100, a
    wind_speed, when present, that is at least 0, and a forecast, when
    present, of between 1 and 7 days. *)
Theorem validate_wellformed (candidate : Json) (w : Output.t) :
  validate candidate = Valid w -> WellFormed w.
Proof. apply valid_report_wellformed. Qed.

Lemma validate_wellformed_witness : WellFormed fiveDayReport.
Proof.
  apply (validate_wellformed fiveDayJson). vm_compute. reflexivity.
Defined.

(** ** Issues *)

Lemma namesIssue_ap {A B} (pf : Parsed (A -> B)) (pa : Parsed A) :
  namesIssue pf -> namesIssue pa -> namesIssue (ap pf pa).
Proof.
  unfold namesIssue. destruct pf as [f|[|i l]], pa as [a|[|j m]]; simpl;
    intros H1 H2; congruence.
Qed.

Lemma namesIssue_under {A} (seg : PathSeg) (p : Parsed A) :
  namesIssue p -> namesIssue (under seg p).
Proof.
  unfold namesIssue. destruct p as [a|[|i l]]; simpl; intros H; congruence.
Qed.

Lemma namesIssue_fmap {A B} (f : A -> B) (p : Parsed A) :
  namesIssue p -> namesIssue (fmap f p).
Proof.
  unfold namesIssue. destruct p as [a|[|i l]]; simpl; intros H; congruence.
Qed.

Lemma namesIssue_run {A} (checks : list (A -> bool)) (a : A) :
  namesIssue (run checks a).
Proof.
  unfold namesIssue, run. destruct (filter _ checks); simpl; discriminate.
Qed.

Lemma namesIssue_checked {A} (s : Schema A) (checks : list (A -> bool)) v :
  namesIssue (s v) -> namesIssue (checked s checks v).
Proof.
  unfold checked. destruct (s v) as [a|i]; intros H;
    [apply namesIssue_run | exact H].
Qed.

Lemma namesIssue_optional {A} (s : Schema A) v :
  (forall x, namesIssue (s x)) -> namesIssue (optional s v).
Proof.
  intros H. unfold optional. destruct v; [apply namesIssue_fmap, H | discriminate].
Qed.

Lemma namesIssue_string v : namesIssue (string v).
Proof. unfold namesIssue, string. destruct v as [[| | | | |]|]; discriminate. Qed.

Lemma namesIssue_number v : namesIssue (number v).
Proof. unfold namesIssue, number. destruct v as [[| | | | |]|]; discriminate. Qed.

Lemma namesIssue_items {A} (s : Schema A) (i : nat) (l : list Json) :
  (forall x, namesIssue (s x)) -> namesIssue (items s i l).
Proof.
  intros H. revert i. induction l as [|x l IH]; intros i; [discriminate|].
  cbn [items]. apply namesIssue_ap; [|apply IH].
  apply namesIssue_ap; [discriminate|]. apply namesIssue_under, H.
Qed.

Lemma namesIssue_array {A} (s : Schema A) (checks : list (nat -> bool)) v :
  (forall x, namesIssue (s x)) -> namesIssue (array s checks v).
Proof.
  intros H. unfold array. destruct v as [[| | | |l|]|]; try discriminate.
  apply namesIssue_ap; [|apply namesIssue_items, H].
  apply namesIssue_ap; [discriminate | apply namesIssue_run].
Qed.

Lemma namesIssue_field {A} (k : jsstr) (s : Schema A) o :
  (forall x, namesIssue (s x)) -> namesIssue (field k s o).
Proof. intros H. apply namesIssue_under, H. Qed.

Ltac issues :=
  repeat first
    [ apply namesIssue_ap
    | apply namesIssue_field; intros ?
    | apply namesIssue_optional; intros ?
    | apply namesIssue_checked
    | apply namesIssue_array; intros ?
    | apply namesIssue_string
    | apply namesIssue_number
    | discriminate ].

Lemma namesIssue_WeatherInfo v : namesIssue (WeatherInfo.schema v).
Proof.
  unfold WeatherInfo.schema. destruct v as [[| | | | |o]|]; try discriminate. issues.
Qed.

Lemma namesIssue_WeatherForecast v : namesIssue (WeatherForecast.schema v).
Proof.
  unfold WeatherForecast.schema. destruct v as [[| | | | |o]|]; try discriminate.
  issues.
Qed.

(** X6.  A candidate that the schema rejects is rejected with at least one
    issue. *)
Theorem validate_names_an_issue (candidate : Json) (issues : list Path) :
  validate candidate = Invalid issues -> issues <> [].
Proof.
  intros E Hnil. subst issues. revert E.
  change (namesIssue (validate candidate)).
  unfold validate, Output.schema. destruct candidate as [| | | | |o]; try discriminate.
  repeat first
    [ apply namesIssue_ap
    | apply namesIssue_field; intros ?
    | apply namesIssue_WeatherInfo
    | apply namesIssue_optional; intros ?
    | apply namesIssue_array; intros ?
    | apply namesIssue_WeatherForecast
    | apply namesIssue_string
    | discriminate ].
Qed.

Lemma validate_names_an_issue_witness :
  validate rejectedJson
  = Invalid [[Key (js "current_weather"); Key (js "humidity")]; [Key (js "forecast")]]
  /\ [[Key (js "current_weather"); Key (js "humidity")]; [Key (js "forecast")]] <> [].
Proof.
  assert (E : validate rejectedJson
              = Invalid [[Key (js "current_weather"); Key (js "humidity")];
                         [Key (js "forecast")]]) by (vm_compute; reflexivity).
  split; [exact E | exact (validate_names_an_issue rejectedJson _ E)].
Defined.

End Parsing.

Lemma getField_cons_other (k k' : jsstr) (v : Json) (o : list (jsstr * Json)) :
  k <> k' -> getField k ((k', v) :: o) = getField k o.
Proof.
  intros Hne. cbn [getField]. destruct (getField k o); [reflexivity|].
  destruct (JS.eqb k k') eqn:E; [|reflexivity].
  apply eqb_eq in E. contradiction.
Qed.

(** X7.  Validation reads the four root fields and nothing else: two
    objects that agree on them get the same result, so unknown keys and the
    order of the keys do not matter. *)
Theorem validate_reads_root_fields (o o' : list (jsstr * Json)) :
  (forall k, In k rootKeys -> getField k o = getField k o') ->
  validate (JObj o) = validate (JObj o').
Proof.
  intros H. unfold validate, Output.schema, Zod.field.
  rewrite (H (js "current_weather")) by (left; reflexivity).
  rewrite (H (js "forecast")) by (right; left; reflexivity).
  rewrite (H (js "clothing_suggestions")) by (right; right; left; reflexivity).
  rewrite (H (js "activity_recommendations"))
    by (right; right; right; left; reflexivity).
  reflexivity.
Qed.

Lemma validate_reads_root_fields_witness :
  validate (JObj annotatedJson) = validate (JObj minimalFields).
Proof.
  apply validate_reads_root_fields.
  intros k [<- | [<- | [<- | [<- | []]]]]; vm_compute; reflexivity.
Defined.

(* ================================================================== *)
(** * Further properties: the sections of a summary                     *)
(* ================================================================== *)

Lemma filter_section_all {A} (p : Line -> bool) (c : bool) (title : Line)
      (mk : A -> Line) (l : list A) :
  p title = true -> (forall x, p (mk x) = true) ->
  filter p (if c then title :: List.map mk l else [])
  = if c then title :: List.map mk l else [].
Proof.
  intros Ht Hm. destruct c; [|reflexivity]. simpl. rewrite Ht.
  rewrite filter_map_all by exact Hm. reflexivity.
Qed.

Lemma filter_current_block (p : Line -> bool) (withTitle : bool) (w : Output.t)
      (rest : list Line) :
  (forall l, isCurrentBlock l = true -> p l = false) ->
  filter p
    ([Header (WeatherInfo.location (Output.current_weather w))]
     ++ (if withTitle then [CurrentTitle] else [])
     ++ match WeatherInfo.current_temp (Output.current_weather w) with
        | Some t => if numTruthy t then [TemperatureLine t] else []
        | None => []
        end
     ++ [ConditionLine (WeatherInfo.condition (Output.current_weather w))]
     ++ match WeatherInfo.humidity (Output.current_weather w) with
        | Some h => if numTruthy h then [HumidityLine h] else []
        | None => []
        end
     ++ match WeatherInfo.wind_speed (Output.current_weather w) with
        | Some v => if numTruthy v then [WindLine v] else []
        | None => []
        end
     ++ rest)
  = filter p rest.
Proof.
  intros H.
  destruct withTitle;
    destruct (WeatherInfo.current_temp (Output.current_weather w)) as [t|];
    try destruct (numTruthy t);
    destruct (WeatherInfo.humidity (Output.current_weather w)) as [h|];
    try destruct (numTruthy h);
    destruct (WeatherInfo.wind_speed (Output.current_weather w)) as [v|];
    try destruct (numTruthy v);
    cbn [app filter]; rewrite ?H by reflexivity; reflexivity.
Qed.

Ltac sections :=
  unfold summaryLines;
  rewrite filter_current_block by (intros [] Hl; (discriminate Hl || reflexivity));
  rewrite !filter_app;
  repeat first
    [ rewrite filter_section_all by (reflexivity || (intros; reflexivity))
    | rewrite (filter_section_none _ _ ForecastTitle DayLine)
        by (reflexivity || (intros; reflexivity))
    | rewrite (filter_section_none _ _ ClothingTitle ClothingItem)
        by (reflexivity || (intros; reflexivity))
    | rewrite (filter_section_none _ _ ActivityTitle ActivityItem)
        by (reflexivity || (intros; reflexivity))
    | rewrite (filter_section_none _ _ TipsTitle TipItem)
        by (reflexivity || (intros; reflexivity)) ];
  rewrite ?app_nil_r; reflexivity.

(** X8.  In the summary of either formatter a section is there exactly
    when its list is present and not empty, and then it is its title
    followed by one piece per item, in the order of the list: all the items
    for the clothing, activity and tips sections, the first three at most
    for the forecast. *)
Theorem summary_sections (rt : Runtime) (w : Output.t) :
  Bot.formatWeatherMessage rt w
  = List.concat (List.map (Bot.renderLine rt) (summaryLines true w))
  /\ Serverless.formatWeatherMessage rt w
    = List.concat (List.map (Serverless.renderLine rt) (summaryLines false w))
  /\ forall withTitle,
      filter inForecast (summaryLines withTitle w)
      = (if hasItems (Output.forecast w)
         then ForecastTitle
              :: List.map DayLine (firstn 3 (itemsOf (Output.forecast w)))
         else [])
      /\ filter inClothing (summaryLines withTitle w)
        = (if hasItems (Output.clothing_suggestions w)
           then ClothingTitle
                :: List.map ClothingItem (itemsOf (Output.clothing_suggestions w))
           else [])
      /\ filter inActivities (summaryLines withTitle w)
        = (if hasItems (Output.activity_recommendations w)
           then ActivityTitle
                :: List.map ActivityItem (itemsOf (Output.activity_recommendations w))
           else [])
      /\ filter inTips (summaryLines withTitle w)
        = (if hasItems (WeatherInfo.recommendations (Output.current_weather w))
           then TipsTitle
                :: List.map TipItem
                     (itemsOf (WeatherInfo.recommendations (Output.current_weather w)))
           else []).
Proof.
  split; [apply formatWeatherMessage_lines|].
  split; [apply serverless_formatWeatherMessage_lines|].
  intros withTitle. split; [|split; [|split]]; sections.
Qed.

(* ================================================================== *)
(** * Further properties: the message handlers                          *)
(* ================================================================== *)

Ltac observe :=
  cbn [trace outcome fst snd sentMessages modelCalls keyboards reply_markup
       List.length app].

(** X9.  The message handler of src/bot.js never throws, and sends at most
    one message and calls the model at most once; a message without text is
    answered with the generic apology, and a text that is not recognized
    causes nothing at all. *)
Theorem onMessage_contained (rt : Runtime) (msg : Bot.Message) :
  outcome (Bot.onMessage rt msg) = inr tt
  /\ (List.length (sentMessages (trace (Bot.onMessage rt msg))) <= 1)%nat
  /\ (List.length (modelCalls (trace (Bot.onMessage rt msg))) <= 1)%nat
  /\ (Bot.msg_text msg = None ->
      trace (Bot.onMessage rt msg)
      = [SendMessage (Bot.chat_id msg) Bot.genericApology None])
  /\ (forall text, Bot.msg_text msg = Some text ->
                   Bot.isWeatherRequest text = false ->
                   trace (Bot.onMessage rt msg) = []).
Proof.
  destruct msg as [chat [text|]].
  - destruct (Bot.isWeatherRequest text) eqn:H.
    + destruct (Bot.location (Bot.parseWeatherCommand text)) as [|c l] eqn:E.
      * rewrite (onMessage_empty_location rt chat text H E). observe.
        repeat split; try lia; try discriminate.
        intros txt Et Ht. inversion Et; subst txt. congruence.
      * assert (Hne : Bot.location (Bot.parseWeatherCommand text) <> [])
          by (rewrite E; discriminate).
        rewrite (onMessage_fetch rt chat text H Hne).
        destruct (fetchResult rt _); observe;
          (repeat split; try lia; try discriminate;
           intros txt Et Ht; inversion Et; subst txt; congruence).
    + rewrite (onMessage_ignored rt chat text H). observe.
      repeat split; try lia; discriminate.
  - rewrite onMessage_no_text. observe. repeat split; try lia. discriminate.
Qed.

Lemma onMessage_contained_witness :
  trace (Bot.onMessage (sampleRuntime None) textless)
  = [SendMessage (Bot.chat_id textless) Bot.genericApology None].
Proof.
  exact (proj1 (proj2 (proj2 (proj2
           (onMessage_contained (sampleRuntime None) textless)))) eq_refl).
Defined.

(** The ways through the message handler of src/api/bot.js. *)
Lemma api_getWeatherInfo_eq (rt : Runtime) (location preferences : option jsstr) :
  ApiHandlers.getWeatherInfo rt location preferences
  = ([GenerateObject
        (ApiHandlers.prompt (ApiHandlers.interpolate location)
           match preferences with Some p => p | None => js "" end)],
     fetchResult rt
        (ApiHandlers.prompt (ApiHandlers.interpolate location)
           match preferences with Some p => p | None => js "" end)).
Proof.
  unfold ApiHandlers.getWeatherInfo, generateObject, fetchResult, validate.
  destruct (reply rt _) as [j|]; [|reflexivity].
  destruct (Output.schema (Some j)); reflexivity.
Qed.

Lemma api_onMessage_run (rt : Runtime) (chat : Z) (c : CodeUnit) (text : jsstr) :
  exists events,
    ApiHandlers.onMessage rt {| Bot.chat_id := chat; Bot.msg_text := Some (c :: text) |}
    = (events, inr tt)
    /\ (List.length (sentMessages events) <= 1)%nat
    /\ (List.length (modelCalls events) <= 1)%nat
    /\ (Bot.isWeatherRequest (c :: text) = false -> events = []).
Proof.
  unfold ApiHandlers.onMessage. cbn [Bot.msg_text Bot.chat_id truthy negb].
  destruct (Bot.isWeatherRequest (c :: text)) eqn:H.
  - destruct (Bot.location (Bot.parseWeatherCommand (c :: text))) as [|c' l] eqn:E.
    + cbn [truthy negb]. run. eexists. split; [reflexivity|]. observe.
      repeat split; try lia; try discriminate.
    + cbn [truthy negb]. rewrite api_getWeatherInfo_eq.
      destruct (fetchResult rt _); run; (eexists; split; [reflexivity|]);
        observe; repeat split; try lia; try discriminate.
  - run. eexists. split; [reflexivity|]. observe.
    repeat split; try lia; try reflexivity.
Qed.

Lemma api_onMessage_no_text (rt : Runtime) (chat : Z) :
  ApiHandlers.onMessage rt {| Bot.chat_id := chat; Bot.msg_text := None |}
  = ([], inr tt).
Proof. reflexivity. Qed.

Lemma api_onMessage_empty (rt : Runtime) (chat : Z) :
  ApiHandlers.onMessage rt {| Bot.chat_id := chat; Bot.msg_text := Some [] |}
  = ([], inr tt).
Proof. reflexivity. Qed.

(** X10.  The message handler of src/api/bot.js never throws, and sends at
    most one message and calls the model at most once; a message without
    text or with the empty text, and a text that is not recognized, cause
    nothing at all. *)
Theorem api_onMessage_contained (rt : Runtime) (msg : Bot.Message) :
  outcome (ApiHandlers.onMessage rt msg) = inr tt
  /\ (List.length (sentMessages (trace (ApiHandlers.onMessage rt msg))) <= 1)%nat
  /\ (List.length (modelCalls (trace (ApiHandlers.onMessage rt msg))) <= 1)%nat
  /\ (Bot.msg_text msg = None \/ Bot.msg_text msg = Some (js "") ->
      trace (ApiHandlers.onMessage rt msg) = [])
  /\ (forall text, Bot.msg_text msg = Some text ->
                   Bot.isWeatherRequest text = false ->
                   trace (ApiHandlers.onMessage rt msg) = []).
Proof.
  destruct msg as [chat [[|c text]|]].
  - rewrite api_onMessage_empty. observe. repeat split; try lia; reflexivity.
  - destruct (api_onMessage_run rt chat c text) as [events [E [H1 [H2 H3]]]].
    rewrite E. cbn [trace outcome fst snd Bot.msg_text].
    split; [reflexivity|]. split; [exact H1|]. split; [exact H2|]. split.
    + intros [F | F]; discriminate.
    + intros txt Et Ht. inversion Et; subst txt. exact (H3 Ht).
  - rewrite api_onMessage_no_text. observe. repeat split; try lia; reflexivity.
Qed.

Lemma api_onMessage_contained_witness :
  trace (ApiHandlers.onMessage (sampleRuntime None) textless) = [].
Proof.
  exact (proj1 (proj2 (proj2 (proj2
           (api_onMessage_contained (sampleRuntime None) textless))))
           (or_introl eq_refl)).
Defined.

(** The serverless handler. *)
Lemma serverless_getWeatherInfo_eq (rt : Runtime) (location preferences : jsstr) :
  ServerlessHandlers.getWeatherInfo rt location preferences
  = ([GenerateObject (ServerlessHandlers.prompt location preferences)],
     fetchResult rt (ServerlessHandlers.prompt location preferences)).
Proof.
  unfold ServerlessHandlers.getWeatherInfo, generateObject, fetchResult, validate.
  destruct (reply rt _) as [j|]; [|reflexivity].
  destruct (Output.schema (Some j)); reflexivity.
Qed.

Lemma serverless_onMessage_run (rt : Runtime) (chat : Z) (c : CodeUnit) (text : jsstr) :
  exists events,
    ServerlessHandlers.onMessage rt
      {| Bot.chat_id := chat; Bot.msg_text := Some (c :: text) |}
    = (events, inr tt)
    /\ (List.length (sentMessages events) <= 1)%nat
    /\ (List.length (modelCalls events) <= 1)%nat
    /\ keyboards events = []
    /\ (Bot.location (Bot.parseWeatherCommand (c :: text)) = [] ->
        ServerlessHandlers.isWeatherRequest (c :: text) = true ->
        events = [SendMessage chat ServerlessHandlers.usageHint None]).
Proof.
  unfold ServerlessHandlers.onMessage. cbn [Bot.msg_text Bot.chat_id truthy negb].
  destruct (ServerlessHandlers.isWeatherRequest (c :: text)) eqn:H.
  - destruct (Bot.location (Bot.parseWeatherCommand (c :: text))) as [|c' l] eqn:E.
    + cbn [truthy negb]. run. eexists. split; [reflexivity|]. observe.
      repeat split; try lia; try discriminate.
    + cbn [truthy negb]. rewrite serverless_getWeatherInfo_eq.
      destruct (fetchResult rt _); run; (eexists; split; [reflexivity|]);
        observe; repeat split; try lia; try discriminate.
  - run. eexists. split; [reflexivity|]. observe.
    repeat split; try lia; try discriminate.
Qed.

Lemma serverless_onMessage_no_text (rt : Runtime) (chat : Z) :
  ServerlessHandlers.onMessage rt {| Bot.chat_id := chat; Bot.msg_text := None |}
  = ([], inr tt).
Proof. reflexivity. Qed.

Lemma serverless_onMessage_empty (rt : Runtime) (chat : Z) :
  ServerlessHandlers.onMessage rt {| Bot.chat_id := chat; Bot.msg_text := Some [] |}
  = ([], inr tt).
Proof. reflexivity. Qed.

(** X11.  The message handler of the serverless file never throws, sends
    at most one message, calls the model at most once, and never attaches a
    keyboard to what it sends: its replies carry no buttons. *)
Theorem serverless_onMessage_contained (rt : Runtime) (msg : Bot.Message) :
  outcome (ServerlessHandlers.onMessage rt msg) = inr tt
  /\ (List.length (sentMessages (trace (ServerlessHandlers.onMessage rt msg))) <= 1)%nat
  /\ (List.length (modelCalls (trace (ServerlessHandlers.onMessage rt msg))) <= 1)%nat
  /\ keyboards (trace (ServerlessHandlers.onMessage rt msg)) = [].
Proof.
  destruct msg as [chat [[|c text]|]].
  - rewrite serverless_onMessage_empty. observe. repeat split; lia.
  - destruct (serverless_onMessage_run rt chat c text) as [events [E [H1 [H2 [H3 _]]]]].
    rewrite E. cbn [trace outcome fst snd]. auto.
  - rewrite serverless_onMessage_no_text. observe. repeat split; lia.
Qed.

(** ** The two recognizers *)

Lemma startsWith_lower (s p : jsstr) :
  startsWith (toLowerCase s) p = startsWithCI s p.
Proof.
  revert s. induction p as [|x p IH]; intros [|y s]; simpl; try reflexivity.
  rewrite IH. reflexivity.
Qed.

Lemma includes_lower (s p : jsstr) :
  includes (toLowerCase s) p = ServerlessHandlers.includesCI s p.
Proof.
  induction s as [|y s IH].
  - destruct p; reflexivity.
  - cbn [toLowerCase List.map includes ServerlessHandlers.includesCI].
    change (lowerUnit y :: List.map lowerUnit s) with (toLowerCase (y :: s)).
    rewrite startsWith_lower. unfold toLowerCase in IH. rewrite IH. reflexivity.
Qed.

Lemma slash_w_space_units : js "/w " = [47; 119; 32]%N.
Proof. vm_compute. reflexivity. Qed.

Lemma slash_w_units : js "/w" = [47; 119]%N.
Proof. vm_compute. reflexivity. Qed.

Lemma slash_w_space (s : jsstr) :
  startsWithCI s (js "/w ") = true ->
  startsWithCI s (js "/w")
  && match skipn 2 s with c :: _ => isWhiteSpace c | [] => false end = true.
Proof.
  rewrite slash_w_space_units, slash_w_units.
  destruct s as [|a [|b [|c s]]]; cbn [startsWithCI skipn];
    rewrite ?andb_false_r; try discriminate.
  rewrite !andb_true_r, !andb_true_iff.
  intros [Ha [Hb Hc]]. apply N.eqb_eq in Hc.
  assert (Ec : c = 32%N).
  { unfold lowerUnit in Hc.
    destruct ((65 <=? c) && (c <=? 90))%N eqn:Hr; [|congruence].
    apply andb_true_iff in Hr as [H1 _]. apply N.leb_le in H1. lia. }
  subst c. split; [split; assumption | reflexivity].
Qed.

(** X12.  The serverless file recognizes every text that src/bot.js
    recognizes, and besides those exactly the texts that start with [/w] in
    either case followed by a white-space character (a tab, a line feed):
    its test is that of src/bot.js or this one. *)
Theorem serverless_recognizes_more (text : jsstr) :
  ServerlessHandlers.isWeatherRequest text
  = Bot.isWeatherRequest text
    || (startsWithCI text (js "/w")
        && match skipn 2 text with c :: _ => isWhiteSpace c | [] => false end).
Proof.
  unfold ServerlessHandlers.isWeatherRequest, Bot.isWeatherRequest.
  rewrite !startsWith_lower, includes_lower.
  destruct (startsWithCI text (js "/weather")); [reflexivity|].
  destruct (ServerlessHandlers.includesCI text (js "weather")); [reflexivity|].
  cbn [orb].
  destruct (startsWithCI text (js "/w ")) eqn:E; [|reflexivity].
  rewrite (slash_w_space text E). reflexivity.
Qed.

(* ================================================================== *)
(** * Further properties: the callback handlers                         *)
(* ================================================================== *)

Lemma onCallback_events (rt : Runtime) (id : jsstr) (chat : Z) (d : jsstr) :
  exists sends,
    Bot.onCallback rt {| Bot.id := id; Bot.cb_chat_id := chat; Bot.data := Some d |}
    = (AnswerCallbackQuery id
       :: GenerateObject (Bot.prompt (snd (Bot.decodeCallback d)) (js ""))
       :: sends,
       inr tt)
    /\ modelCalls sends = []
    /\ (List.length (sentMessages sends) <= 1)%nat
    /\ keyboards sends = [].
Proof.
  destruct (fetchResult rt (Bot.prompt (snd (Bot.decodeCallback d)) (js "")))
    as [e|w] eqn:Hf.
  - rewrite (onCallback_failure rt id chat d e Hf). eexists.
    split; [reflexivity|]. observe. repeat split; lia.
  - unfold Bot.onCallback. cbn [Bot.data Bot.id Bot.cb_chat_id].
    destruct (Bot.decodeCallback d) as [action location]. cbn [snd] in *.
    rewrite getWeatherInfo_eq, Hf. run.
    repeat match goal with
           | |- context [if ?c then _ else _] => destruct c
           | |- context [match nth_error ?l ?n with _ => _ end] =>
             destruct (nth_error l n)
           end;
      run; (eexists; split; [reflexivity|]); unfold Bot.markdown; observe;
      repeat split; lia.
Qed.

(** X13.  The callback handler of src/bot.js acknowledges the press before
    anything else, throws exactly when the press carries no data, calls the
    model exactly once when it does, sends at most one message and never a
    keyboard. *)
Theorem onCallback_contained (rt : Runtime) (q : Bot.CallbackQuery) :
  (exists rest, trace (Bot.onCallback rt q) = AnswerCallbackQuery (Bot.id q) :: rest)
  /\ outcome (Bot.onCallback rt q)
     = match Bot.data q with Some _ => inr tt | None => inl TypeError end
  /\ List.length (modelCalls (trace (Bot.onCallback rt q)))
     = match Bot.data q with Some _ => 1%nat | None => 0%nat end
  /\ (List.length (sentMessages (trace (Bot.onCallback rt q))) <= 1)%nat
  /\ keyboards (trace (Bot.onCallback rt q)) = [].
Proof.
  destruct q as [id chat [d|]]; cbn [Bot.id Bot.data].
  - destruct (onCallback_events rt id chat d) as [sends [E [H1 [H2 H3]]]].
    rewrite E. observe. rewrite H1.
    split; [eexists; reflexivity|]. repeat split; auto.
  - rewrite onCallback_no_data. observe.
    split; [eexists; reflexivity|]. repeat split; lia.
Qed.

(** X14.  In src/bot.js a press whose payload holds no underscore, or ends
    with its only underscore, calls the model with the empty location: the
    callback path has no guard like the one of the message path. *)
Theorem callback_without_location_fetches (rt : Runtime) (id : jsstr) (chat : Z)
        (action : jsstr) :
  noUnderscore action = true ->
  modelCalls (trace (Bot.onCallback rt
                       {| Bot.id := id; Bot.cb_chat_id := chat;
                          Bot.data := Some action |}))
  = [Bot.prompt (js "") (js "")]
  /\ modelCalls (trace (Bot.onCallback rt
                          {| Bot.id := id; Bot.cb_chat_id := chat;
                             Bot.data := Some (encodeCallback action (js "")) |}))
     = [Bot.prompt (js "") (js "")].
Proof.
  intros Ha. split.
  - destruct (onCallback_events rt id chat action) as [sends [E [H1 _]]].
    rewrite E. observe. rewrite H1. unfold Bot.decodeCallback.
    rewrite (split2_underscore_none action Ha). reflexivity.
  - destruct (onCallback_events rt id chat (encodeCallback action (js "")))
      as [sends [E [H1 _]]].
    rewrite E. observe. rewrite H1, (bot_decode_encode action (js "") Ha).
    reflexivity.
Qed.

Lemma callback_without_location_fetches_witness :
  modelCalls (trace (Bot.onCallback (sampleRuntime None)
                       {| Bot.id := js "42"; Bot.cb_chat_id := 7;
                          Bot.data := Some (js "today") |}))
  = [Bot.prompt (js "") (js "")].
Proof.
  assert (Ha : noUnderscore (js "today") = true) by (vm_compute; reflexivity).
  exact (proj1 (callback_without_location_fetches (sampleRuntime None) (js "42") 7
                  (js "today") Ha)).
Defined.

(** ** src/api/bot.js *)

Lemma respond_shape (rt : Runtime) (chat : Z) (action location : jsstr)
      (w : Output.t) :
  exists o,
    ApiHandlers.respond rt chat action location w
    = (match o with Some m => [SendMessage chat m Bot.markdown] | None => [] end,
       inr tt).
Proof.
  unfold ApiHandlers.respond. cbv zeta.
  repeat match goal with
         | |- context [if ?c then _ else _] => destruct c
         | |- context [match nth_error ?l ?n with _ => _ end] =>
           destruct (nth_error l n)
         end;
    first [ exists None; reflexivity | eexists (Some _); reflexivity ].
Qed.

Lemma api_onCallback_events (rt : Runtime) (id : jsstr) (chat : Z) (d : jsstr) :
  exists sends,
    ApiHandlers.onCallback rt
      {| Bot.id := id; Bot.cb_chat_id := chat; Bot.data := Some d |}
    = (AnswerCallbackQuery id
       :: GenerateObject
            (ApiHandlers.prompt
               (ApiHandlers.interpolate (snd (ApiBot.decodeCallback d))) (js ""))
       :: sends,
       inr tt)
    /\ modelCalls sends = []
    /\ (List.length (sentMessages sends) <= 1)%nat.
Proof.
  unfold ApiHandlers.onCallback. cbn [Bot.data Bot.id Bot.cb_chat_id].
  destruct (ApiBot.decodeCallback d) as [action location]. cbn [snd].
  rewrite api_getWeatherInfo_eq.
  destruct (fetchResult rt _) as [e|w].
  - run. eexists. split; [reflexivity|]. observe. split; [reflexivity | lia].
  - run.
    destruct (respond_shape rt chat action (ApiHandlers.interpolate location) w)
      as [[m|] E]; rewrite E; (eexists; split; [reflexivity|]);
      unfold Bot.markdown; observe; split; (reflexivity || lia).
Qed.

(** X15.  In src/api/bot.js the press of a button made for [location]
    calls the model, once, for the part of [location] before its first
    underscore (all of it when it holds none), and a press whose payload
    holds no underscore calls it for the location ["undefined"]. *)
Theorem api_callback_fetches_first_part (rt : Runtime) (id : jsstr) (chat : Z)
        (action location : jsstr) :
  noUnderscore action = true ->
  modelCalls (trace (ApiHandlers.onCallback rt
                       {| Bot.id := id; Bot.cb_chat_id := chat;
                          Bot.data := Some (encodeCallback action location) |}))
  = [ApiHandlers.prompt (fst (split2 Bot.isUnderscore location)) (js "")]
  /\ modelCalls (trace (ApiHandlers.onCallback rt
                          {| Bot.id := id; Bot.cb_chat_id := chat;
                             Bot.data := Some action |}))
     = [ApiHandlers.prompt (js "undefined") (js "")].
Proof.
  intros Ha. split.
  - destruct (api_onCallback_events rt id chat (encodeCallback action location))
      as [sends [E [H1 _]]].
    rewrite E. observe. rewrite H1, (api_decode_encode action location Ha).
    reflexivity.
  - destruct (api_onCallback_events rt id chat action) as [sends [E [H1 _]]].
    rewrite E. observe. rewrite H1. unfold ApiBot.decodeCallback.
    rewrite (split2_underscore_none action Ha). reflexivity.
Qed.

Lemma api_callback_fetches_first_part_witness :
  modelCalls (trace (ApiHandlers.onCallback (sampleRuntime None)
                       {| Bot.id := js "42"; Bot.cb_chat_id := 7;
                          Bot.data := Some (js "today_New_York") |}))
  = [ApiHandlers.prompt (js "New") (js "")].
Proof.
  assert (Ha : noUnderscore (js "today") = true) by (vm_compute; reflexivity).
  pose proof (proj1 (api_callback_fetches_first_part (sampleRuntime None) (js "42") 7
                       (js "today") (js "New_York") Ha)) as H.
  vm_compute in H |- *. exact H.
Defined.

(* ================================================================== *)
(** * Further properties: what the buttons show                         *)
(* ================================================================== *)

Lemma fetchResult_wellformed (rt : Runtime) (p : jsstr) (w : Output.t) :
  fetchResult rt p = inr w -> WellFormed w.
Proof.
  unfold fetchResult. destruct (reply rt p) as [j|]; [|discriminate].
  destruct (validate j) as [w'|] eqn:E; [|discriminate].
  intros H. inversion H; subst w'. exact (valid_report_wellformed j w E).
Qed.

Lemma onCallback_respond (rt : Runtime) (id : jsstr) (chat : Z)
      (action location : jsstr) (w : Output.t) :
  noUnderscore action = true ->
  fetchResult rt (Bot.prompt location (js "")) = inr w ->
  pressed rt id chat action location
  = sentMessages (trace (ApiHandlers.respond rt chat action location w)).
Proof.
  intros Ha Hf. unfold pressed, Bot.onCallback, ApiHandlers.respond.
  cbn [Bot.data Bot.id Bot.cb_chat_id].
  rewrite (bot_decode_encode action location Ha).
  rewrite getWeatherInfo_eq, Hf. run. cbv zeta.
  repeat match goal with
         | |- context [if ?c then _ else _] => destruct c
         | |- context [match nth_error ?l ?n with _ => _ end] =>
           destruct (nth_error l n)
         end;
    reflexivity.
Qed.

Ltac view :=
  unfold ApiHandlers.respond; cbv zeta; eval_tests; cbv iota.

Lemma respond_today (rt : Runtime) (chat : Z) (location : jsstr) (w : Output.t) :
  sentMessages (trace (ApiHandlers.respond rt chat (js "today") location w))
  = match nth_error (itemsOf (Output.forecast w)) 0 with
    | Some today =>
      [(chat, Bot.dayMessage rt (js "🌤️ *Today's Forecast for ") location today)]
    | None => []
    end.
Proof. view. destruct (nth_error _ 0); reflexivity. Qed.

Lemma respond_tomorrow (rt : Runtime) (chat : Z) (location : jsstr) (w : Output.t) :
  sentMessages (trace (ApiHandlers.respond rt chat (js "tomorrow") location w))
  = match nth_error (itemsOf (Output.forecast w)) 1 with
    | Some tomorrow =>
      [(chat, Bot.dayMessage rt (js "📅 *Tomorrow's Forecast for ") location tomorrow)]
    | None => []
    end.
Proof. view. destruct (nth_error _ 1); reflexivity. Qed.

Lemma respond_3days (rt : Runtime) (chat : Z) (location : jsstr) (w : Output.t) :
  sentMessages (trace (ApiHandlers.respond rt chat (js "3days") location w))
  = if hasItems (option_map (firstn 3) (Output.forecast w))
    then [(chat,
           js "🔮 *3-Day Forecast for " ++ location ++ js ":*\n\n"
           ++ List.concat (List.map (Bot.dayLine rt)
                             (itemsOf (option_map (firstn 3) (Output.forecast w)))))]
    else [].
Proof.
  view. destruct (hasItems _); [|reflexivity].
  run. observe. rewrite appendEach_concat, <- !app_assoc. reflexivity.
Qed.

Lemma respond_clothes (rt : Runtime) (chat : Z) (location : jsstr) (w : Output.t) :
  sentMessages (trace (ApiHandlers.respond rt chat (js "clothes") location w)) = []
  <-> hasItems (Output.clothing_suggestions w) = false.
Proof.
  view. destruct (hasItems _); run; observe; split; (reflexivity || discriminate).
Qed.

Lemma respond_activities (rt : Runtime) (chat : Z) (location : jsstr) (w : Output.t) :
  sentMessages (trace (ApiHandlers.respond rt chat (js "activities") location w)) = []
  <-> hasItems (Output.activity_recommendations w) = false.
Proof.
  view. destruct (hasItems _); run; observe; split; (reflexivity || discriminate).
Qed.

Lemma respond_forecast (rt : Runtime) (chat : Z) (location : jsstr) (w : Output.t) :
  sentMessages (trace (ApiHandlers.respond rt chat (js "forecast") location w)) = []
  <-> hasItems (Output.forecast w) = false.
Proof.
  view. destruct (hasItems _); run; observe; split; (reflexivity || discriminate).
Qed.

Lemma wellformed_forecast (w : Output.t) :
  WellFormed w ->
  Output.forecast w = None
  \/ exists d days, Output.forecast w = Some (d :: days).
Proof.
  intros [_ [_ [_ H]]]. destruct (Output.forecast w) as [[|d days]|]; eauto.
  specialize (H [] eq_refl). simpl in H. lia.
Qed.

(** X16.  When the fetch of a press returns a report, the buttons of
    src/bot.js stay silent in these cases only: Today, 3 Days and Full
    Forecast when the report has no forecast; Tomorrow when it has no
    forecast or a forecast of one day; Clothing Tips and Activities when
    their list is absent or empty. *)
Theorem silent_buttons (rt : Runtime) (id : jsstr) (chat : Z) (location : jsstr)
        (w : Output.t) :
  fetchResult rt (Bot.prompt location (js "")) = inr w ->
  (pressed rt id chat (js "today") location = [] <-> Output.forecast w = None)
  /\ (pressed rt id chat (js "tomorrow") location = []
      <-> (List.length (itemsOf (Output.forecast w)) < 2)%nat)
  /\ (pressed rt id chat (js "3days") location = [] <-> Output.forecast w = None)
  /\ (pressed rt id chat (js "clothes") location = []
      <-> hasItems (Output.clothing_suggestions w) = false)
  /\ (pressed rt id chat (js "activities") location = []
      <-> hasItems (Output.activity_recommendations w) = false)
  /\ (pressed rt id chat (js "forecast") location = [] <-> Output.forecast w = None).
Proof.
  intros Hf. pose proof (fetchResult_wellformed rt _ w Hf) as Hw.
  rewrite !(fun a Ha => onCallback_respond rt id chat a location w Ha Hf)
    by (vm_compute; reflexivity).
  rewrite respond_today, respond_tomorrow, respond_3days, respond_clothes,
    respond_activities, respond_forecast.
  destruct (wellformed_forecast w Hw) as [E | [d [days E]]]; rewrite E;
    cbn [itemsOf nth_error option_map firstn hasItems List.length].
  - repeat split; try reflexivity; try lia; try discriminate; try tauto.
  - repeat split; try discriminate; try reflexivity; try tauto.
    + destruct days; cbn [nth_error List.length]; [lia | discriminate].
    + destruct days; cbn [nth_error List.length]; [reflexivity | lia].
Qed.

Lemma silent_buttons_witness :
  fetchResult (sampleRuntime (Some fiveDayJson)) (Bot.prompt (js "Oslo") (js ""))
  = inr fiveDayReport
  /\ (pressed (sampleRuntime (Some fiveDayJson)) (js "42") 7 (js "clothes") (js "Oslo")
      = []
      <-> hasItems (Output.clothing_suggestions fiveDayReport) = false).
Proof.
  assert (Hr : fetchResult (sampleRuntime (Some fiveDayJson))
                 (Bot.prompt (js "Oslo") (js "")) = inr fiveDayReport)
    by (vm_compute; reflexivity).
  split; [exact Hr|].
  exact (proj1 (proj2 (proj2 (proj2
           (silent_buttons (sampleRuntime (Some fiveDayJson)) (js "42") 7 (js "Oslo")
              fiveDayReport Hr))))).
Defined.

Lemma contains_suffix (message a b : jsstr) :
  contains message (a ++ b) -> contains message b.
Proof.
  intros [before [after ->]]. exists (before ++ a), after.
  rewrite <- !app_assoc. reflexivity.
Qed.

Lemma concat_titled {A B : Type} (f : A -> jsstr) (g : B -> A) (title : A)
      (l : list B) :
  List.concat (List.map f (title :: List.map g l))
  = f title ++ List.concat (List.map (fun x => f (g x)) l).
Proof. cbn [List.map List.concat]. rewrite map_map. reflexivity. Qed.

Lemma render_days (rt : Runtime) (l : list WeatherForecast.t) :
  List.map (fun d => Bot.renderLine rt (DayLine d)) l = List.map (Bot.dayLine rt) l.
Proof. reflexivity. Qed.

Lemma preview_of_summary (rt : Runtime) (w : Output.t)
      (days : list WeatherForecast.t) :
  Output.forecast w = Some days ->
  hasItems (Some days) = true ->
  contains (Bot.formatWeatherMessage rt w)
           (List.concat (List.map (Bot.dayLine rt) (firstn 3 days))).
Proof.
  intros Ed Hi. rewrite <- Ed in Hi.
  pose proof (summary_forecast_block rt w Hi) as Hc.
  rewrite concat_titled, render_days in Hc.
  apply contains_suffix in Hc.
  replace (itemsOf (Output.forecast w)) with days in Hc by (rewrite Ed; reflexivity).
  exact Hc.
Qed.

(** X17.  When the fetch of a press on 3 Days returns a report with a
    forecast, the message sent lists the same lines as the preview of the
    summary of that report: the first three days at most, each as
    [date: high°/low° - condition]. *)
Theorem three_days_is_the_preview (rt : Runtime) (id : jsstr) (chat : Z)
        (location : jsstr) (w : Output.t) (days : list WeatherForecast.t) :
  fetchResult rt (Bot.prompt location (js "")) = inr w ->
  Output.forecast w = Some days ->
  pressed rt id chat (js "3days") location
  = [(chat,
      js "🔮 *3-Day Forecast for " ++ location ++ js ":*\n\n"
      ++ List.concat (List.map (Bot.dayLine rt) (firstn 3 days)))]
  /\ contains (Bot.formatWeatherMessage rt w)
              (List.concat (List.map (Bot.dayLine rt) (firstn 3 days)))
  /\ List.length (firstn 3 days) = Nat.min 3 (List.length days).
Proof.
  intros Hf Ed. pose proof (fetchResult_wellformed rt _ w Hf) as Hw.
  destruct (wellformed_forecast w Hw) as [E | [d [more E]]]; [congruence|].
  rewrite Ed in E. inversion E; subst days. clear E.
  split; [|split].
  - rewrite (onCallback_respond rt id chat (js "3days") location w) by
      (assumption || (vm_compute; reflexivity)).
    rewrite respond_3days, Ed. reflexivity.
  - apply (preview_of_summary rt w (d :: more) Ed). reflexivity.
  - apply length_firstn.
Qed.

Lemma three_days_is_the_preview_witness :
  pressed (sampleRuntime (Some fiveDayJson)) (js "42") 7 (js "3days") (js "Oslo")
  = [(7%Z,
      js "🔮 *3-Day Forecast for " ++ js "Oslo" ++ js ":*\n\n"
      ++ List.concat (List.map (Bot.dayLine (sampleRuntime (Some fiveDayJson)))
                        (firstn 3 fiveDays)))].
Proof.
  assert (Hr : fetchResult (sampleRuntime (Some fiveDayJson))
                 (Bot.prompt (js "Oslo") (js "")) = inr fiveDayReport)
    by (vm_compute; reflexivity).
  exact (proj1 (three_days_is_the_preview (sampleRuntime (Some fiveDayJson)) (js "42") 7
                  (js "Oslo") fiveDayReport fiveDays Hr eq_refl)).
Defined.
